(** * zenn-analyzer: the user ranking pipeline of [zenn_user_ranking.py]

    A shallow embedding of the ranking script: user discovery over the
    popular-articles feed, per-user statistics lookup, ranking generation,
    CSV export, console display and the orchestrating pipeline.

    Python integers are [Z]; a Python [set] is a [gset]; lists are lists.
    The remote API is a function from the requested page (or username) to a
    response, so that every run of the script is a pure function of what
    the service answers. *)

From stdpp Require Import gmap strings list pretty sorting.
From Stdlib Require Import ZArith.

Local Open Scope string_scope.
Local Open Scope list_scope.
Local Open Scope Z_scope.

Set Warnings "-register-all".

(** ** Python built-ins used by the script *)

(** The exceptions the operations below raise. *)
Inductive py_error :=
| ZeroDivisionError
| OverflowError
| ValueError
| TypeError.

(** A value, or the exception raised instead. *)
Inductive py_result (A : Type) :=
| Ok (a : A)
| Error (e : py_error).

Arguments Ok {A} a.
Arguments Error {A} e.

(** A floating point number, named by the operation that gave it: the
    float nearest to the quotient of two integers, or a float rounded to a
    number of decimals.  Its digits are not computed. *)
Inductive pyfloat :=
| TrueDiv (a b : Z)
| Round (x : pyfloat) (ndigits : Z).

Module Py.

(** [l[:n]]: a negative bound counts from the end of the list. *)
Definition slice_to {A} (l : list A) (n : Z) : list A :=
  if n <? 0 then take (Z.to_nat (Z.of_nat (length l) + n)) l
  else take (Z.to_nat n) l.

(** [enumerate(l, start)] *)
Fixpoint enumerate {A} (start : Z) (l : list A) : list (Z * A) :=
  match l with
  | [] => []
  | x :: r => (start, x) :: enumerate (start + 1) r
  end.

(** [(a1, a2) < (b1, b2)] on pairs of integers. *)
Definition tuple_lt (a b : Z * Z) : bool :=
  (a.1 <? b.1) || ((a.1 =? b.1) && (a.2 <? b.2)).

(** [sorted(l, key=key, reverse=True)]: descending by key; the sort is
    stable, and [reverse=True] keeps the original order of entries whose
    keys are equal.  The result of a stable sort is determined by its
    input; it is computed here by insertion, an entry being placed in front
    of the first entry whose key is not larger than its own. *)
Fixpoint insert_desc {A} (key : A -> Z * Z) (x : A) (l : list A) : list A :=
  match l with
  | [] => [x]
  | y :: r => if tuple_lt (key x) (key y) then y :: insert_desc key x r
              else x :: y :: r
  end.

Fixpoint sorted_reverse {A} (key : A -> Z * Z) (l : list A) : list A :=
  match l with
  | [] => []
  | x :: r => insert_desc key x (sorted_reverse key r)
  end.

(** [max(a, b)]: the first argument unless the second is larger. *)
Definition max (a b : Z) : Z := if a <? b then b else a.

(** [sum(l)] on integers. *)
Definition sum (l : list Z) : Z := foldl Z.add 0 l.

(** The least magnitude that rounds to a float beyond the largest finite
    one: half a unit in the last place above it. *)
Definition float_limit : Z := 2 ^ 1024 - 2 ^ 970.

(** Whether the quotient of [a] by [b <> 0], rounded to the nearest float,
    is out of the range of floats. *)
Definition float_overflows (a b : Z) : bool :=
  float_limit * Z.abs b <=? Z.abs a.

(** [a / b] on integers, true division: the float nearest to the quotient;
    ZeroDivisionError on a zero divisor, OverflowError when that float is
    out of range. *)
Definition truediv (a b : Z) : py_result pyfloat :=
  if b =? 0 then Error ZeroDivisionError
  else if float_overflows a b then Error OverflowError
  else Ok (TrueDiv a b).

(** [round(x, ndigits)] on a float, for [ndigits >= 0]. *)
Definition round (x : pyfloat) (ndigits : Z) : pyfloat := Round x ndigits.

End Py.

(** ** RankingGenerator *)

Section Ranking.

(** The generator never inspects a username: it is generic in its type. *)
Context {U : Type}.

(** (username, total_liked_count, article_count) *)
Definition user_stat : Type := U * Z * Z.
(** (rank, username, total_liked_count, article_count) *)
Definition ranked_entry : Type := Z * U * Z * Z.

(** The sort key [lambda x: (x[1], x[2])], and the fields of an entry. *)
Definition stat_key (x : user_stat) : Z * Z := (x.1.2, x.2).
Definition entry_key (e : ranked_entry) : Z * Z := (e.1.2, e.2).
Definition entry_rank (e : ranked_entry) : Z := e.1.1.1.
Definition entry_stat (e : ranked_entry) : user_stat := (e.1.1.2, e.1.2, e.2).

Definition generate_top_ranking (user_stats : list user_stat) (top_n : Z)
  : list ranked_entry :=
  let sorted_users := Py.sorted_reverse stat_key user_stats in
  map (fun '(i, (username, total_likes, article_count)) =>
         (i, username, total_likes, article_count))
      (Py.enumerate 1 (Py.slice_to sorted_users top_n)).

End Ranking.

Arguments user_stat U : clear implicits.
Arguments ranked_entry U : clear implicits.

(** ** JSON bodies and the Python operations the script applies to them *)

(** A decoded JSON value.  Numbers are integers; booleans and fractional
    numbers are not part of the model.  An object lists the items of the
    decoded [dict], whose keys are distinct. *)
Inductive json :=
| JNull
| JInt (z : Z)
| JStr (s : string)
| JArr (items : list json)
| JObj (fields : list (string * json)).

(** What [requests.get] gives back: it raises, or it returns a response with
    its [ok] flag and status code; [body = None] is a body on which
    [response.json()] raises. *)
Inductive response :=
| ConnectionError
| Response (ok : bool) (status_code : Z) (body : option json).

(** A member of a Python set built from JSON scalars. *)
Inductive pykey :=
| KNone
| KInt (z : Z)
| KStr (s : string).

#[global] Instance pykey_eq_dec : EqDecision pykey.
Proof. solve_decision. Defined.

Definition pykey_code (k : pykey) : unit + (Z + string) :=
  match k with
  | KNone => inl ()
  | KInt z => inr (inl z)
  | KStr s => inr (inr s)
  end.

Definition pykey_decode (c : unit + (Z + string)) : pykey :=
  match c with
  | inl _ => KNone
  | inr (inl z) => KInt z
  | inr (inr s) => KStr s
  end.

#[global] Instance pykey_countable : Countable pykey.
Proof. apply (inj_countable' pykey_code pykey_decode). by intros []. Defined.

(** [str(x)], as the f-strings and the csv writer apply it. *)
Class PyStr (U : Type) := py_str : U -> string.

#[global] Instance string_py_str : PyStr string := fun s => s.

#[global] Instance Z_py_str : PyStr Z := fun z => pretty z.

#[global] Instance pykey_py_str : PyStr pykey := fun k =>
  match k with
  | KNone => "None"
  | KInt z => pretty z
  | KStr s => s
  end.

(** [format(x, "22s")], before padding: only a string accepts the [s]
    format code; an integer raises ValueError and None raises TypeError. *)
Class PyFormatS (U : Type) := py_format_s : U -> py_result string.

#[global] Instance string_py_format_s : PyFormatS string := fun s => Ok s.

#[global] Instance pykey_py_format_s : PyFormatS pykey := fun k =>
  match k with
  | KStr s => Ok s
  | KInt _ => Error ValueError
  | KNone => Error TypeError
  end.

Module PyJson.

(** [bool(v)] *)
Definition truthy (v : json) : bool :=
  match v with
  | JNull => false
  | JInt z => negb (z =? 0)
  | JStr s => negb (String.eqb s "")
  | JArr items => match items with [] => false | _ => true end
  | JObj fields => match fields with [] => false | _ => true end
  end.

Fixpoint lookup_field (k : string) (fields : list (string * json)) : option json :=
  match fields with
  | [] => None
  | (k', v) :: rest => if String.eqb k k' then Some v else lookup_field k rest
  end.

(** [d.get(k, default)]; [None] is the AttributeError of a value that is
    not a dict. *)
Definition get (d : json) (k : string) (default : json) : option json :=
  match d with
  | JObj fields => Some (from_option id default (lookup_field k fields))
  | _ => None
  end.

Fixpoint chars (s : string) : list json :=
  match s with
  | EmptyString => []
  | String c r => JStr (String c EmptyString) :: chars r
  end.

(** [for x in v]: the items of a list, the keys of a dict, the characters
    of a string; [None] is the TypeError of a value that is not iterable. *)
Definition iter (v : json) : option (list json) :=
  match v with
  | JArr items => Some items
  | JObj fields => Some (map (fun kv => JStr kv.1) fields)
  | JStr s => Some (chars s)
  | JNull | JInt _ => None
  end.

(** [s.add(v)]; [None] is the TypeError of an unhashable value. *)
Definition set_add (s : gset pykey) (v : json) : option (gset pykey) :=
  match v with
  | JNull => Some ({[ KNone ]} ∪ s)
  | JInt z => Some ({[ KInt z ]} ∪ s)
  | JStr x => Some ({[ KStr x ]} ∪ s)
  | JArr _ | JObj _ => None
  end.

End PyJson.

(** ** ZennUserDiscovery *)

(** How a block of the [try] body ends: normally, or by an exception that
    the handler catches; either way with the set as mutated so far. *)
Inductive completion :=
| Done (users : gset pykey)
| Caught (users : gset pykey).

(** How one iteration of the [while] loop ends. *)
Inductive iteration :=
| Break (users : gset pykey)
| NextPage (users : gset pykey) (next_page : json).

(** What a call of the discovery method did: the pages it requested, in
    order, the set it built, and whether it returned that set or an
    exception escaped from the loop condition. *)
Record discovery := {
  discovered_users : gset pykey;
  fetched : list Z;
  raised : bool
}.

Section Discovery.

(** The popular-articles feed, by requested page. *)
Variable feed : Z -> response.
Variable max_pages : Z.

(** The [for article in articles] loop. *)
Fixpoint add_usernames (articles : list json) (discovered : gset pykey)
  : completion :=
  match articles with
  | [] => Done discovered
  | article :: rest =>
      match PyJson.get article "user" (JObj []) with
      | None => Caught discovered
      | Some user =>
          match PyJson.get user "username" JNull with
          | None => Caught discovered
          | Some username =>
              if PyJson.truthy username then
                match PyJson.set_add discovered username with
                | None => Caught discovered
                | Some discovered' => add_usernames rest discovered'
                end
              else add_usernames rest discovered
          end
      end
  end.

(** The body of the [while] loop for one page. *)
Definition process_page (page : Z) (discovered : gset pykey) : iteration :=
  match feed page with
  | ConnectionError => Break discovered
  | Response ok _ body =>
      if negb ok then Break discovered
      else
        match body with
        | None => Break discovered
        | Some data =>
            match PyJson.get data "articles" (JArr []) with
            | None => Break discovered
            | Some articles =>
                if negb (PyJson.truthy articles) then Break discovered
                else
                  match PyJson.iter articles with
                  | None => Break discovered
                  | Some items =>
                      match add_usernames items discovered with
                      | Caught discovered' => Break discovered'
                      | Done discovered' =>
                          match PyJson.get data "next_page" JNull with
                          | None => Break discovered'
                          | Some JNull => Break discovered'
                          | Some next_page => NextPage discovered' next_page
                          end
                      end
                  end
            end
        end
  end.

(** The [while page <= self.max_pages] loop.  [page] is whatever the last
    body gave as [next_page]; comparing a value that is not an integer
    with [max_pages] raises outside the [try].  [fuel] bounds the number
    of iterations; [None] means the bound was reached. *)
Fixpoint discover_loop (fuel : nat) (page : json) (discovered : gset pykey)
    (requests : list Z) : option discovery :=
  match fuel with
  | O => None
  | S fuel' =>
      match page with
      | JInt p =>
          if p <=? max_pages then
            match process_page p discovered with
            | Break discovered' =>
                Some {| discovered_users := discovered';
                        fetched := (requests ++ [p]); raised := false |}
            | NextPage discovered' next_page =>
                discover_loop fuel' next_page discovered' (requests ++ [p])
            end
          else Some {| discovered_users := discovered;
                       fetched := requests; raised := false |}
      | _ => Some {| discovered_users := discovered;
                     fetched := requests; raised := true |}
      end
  end.

Definition discover_users_from_popular_articles (fuel : nat) : option discovery :=
  discover_loop fuel (JInt 1) ∅ [].

End Discovery.

(** ** ZennUserStatsCollector *)

Section Collector.

Context {U : Type} `{Countable U}.

(** The per-user endpoint, by requested username. *)
Variable api : U -> response.

(** The tuple the lookup returns.  The two counts are whatever the body
    holds under the two fields: the method does not inspect them. *)
Definition collected_stat : Type := U * json * json.

Definition collect_user_stats (username : U) : collected_stat :=
  match api username with
  | ConnectionError => (username, JInt 0, JInt 0)
  | Response ok _ body =>
      if negb ok then (username, JInt 0, JInt 0)
      else
        match body with
        | None => (username, JInt 0, JInt 0)
        | Some data =>
            match PyJson.get data "user" (JObj []) with
            | None => (username, JInt 0, JInt 0)
            | Some user =>
                match PyJson.get user "total_liked_count" (JInt 0) with
                | None => (username, JInt 0, JInt 0)
                | Some total_likes =>
                    match PyJson.get user "articles_count" (JInt 0) with
                    | None => (username, JInt 0, JInt 0)
                    | Some article_count => (username, total_likes, article_count)
                    end
                end
            end
        end
  end.

(** The [for] loop over the set appends one tuple per member, in the
    iteration order of the set. *)
Definition collect_all_user_stats (usernames : gset U) : list collected_stat :=
  map collect_user_stats (elements usernames).

End Collector.

Arguments collected_stat U : clear implicits.

(** ** RankingGenerator: export and display *)

Definition csv_header : list string :=
  ["順位"; "ユーザー名"; "総いいね数"; "記事数"; "ユーザーページ"].

(** One line of console output of the ranking display and of the pipeline.
    The progress messages of discovery and collection are not part of it. *)
Inductive console_line :=
| PipelineStart
| NoUsersError
| NoStatsError
| ExportDone (output_path : string)
| RankingTitle (top_n : Z)
| RankingColumns
| RankingRule
| RankingRow (rank : Z) (username : string) (total_likes article_count : Z)
             (avg_likes : pyfloat)
| PipelineComplete
| DiscoveredCount (n : Z)
| CollectedCount (n : Z)
| TotalLikes (n : Z)
| TotalArticles (n : Z)
| RankingSize (n : Z)
| OutputFile (output_path : string).

(** What a display call printed, and whether it returned or raised, and
    what. *)
Inductive printed :=
| Printed (lines : list console_line)
| PrintRaised (e : py_error) (lines : list console_line).

Definition after_line (l : console_line) (p : printed) : printed :=
  match p with
  | Printed lines => Printed (l :: lines)
  | PrintRaised e lines => PrintRaised e (l :: lines)
  end.

Definition printed_lines (p : printed) : list console_line :=
  match p with
  | Printed lines | PrintRaised _ lines => lines
  end.

Section Output.

Context {U : Type} `{PyStr U} `{PyFormatS U}.

(** The rows [csv.writer] is given: each field as the text [str] gives. *)
Definition csv_row (e : ranked_entry U) : list string :=
  let '(rank, username, total_likes, article_count) := e in
  let user_page := "https://zenn.dev/" +:+ py_str username in
  [py_str rank; py_str username; py_str total_likes; py_str article_count;
   user_page].

Definition export_to_csv (ranking : list (ranked_entry U)) : list (list string) :=
  csv_header :: map csv_row ranking.

(** The denominator of the displayed average. *)
Definition avg_denominator (article_count : Z) : Z := Py.max article_count 1.

(** The average of one displayed row:
    [round(total_likes / max(article_count, 1), 1)]. *)
Definition avg_likes (total_likes article_count : Z) : py_result pyfloat :=
  match Py.truediv total_likes (avg_denominator article_count) with
  | Ok quotient => Ok (Py.round quotient 1)
  | Error e => Error e
  end.

(** The rows of the display, one per entry; a row that raises ends it. *)
Fixpoint ranking_rows (entries : list (ranked_entry U)) : printed :=
  match entries with
  | [] => Printed []
  | (rank, username, total_likes, article_count) :: rest =>
      match avg_likes total_likes article_count with
      | Error e => PrintRaised e []
      | Ok avg =>
          match py_format_s username with
          | Error e => PrintRaised e []
          | Ok name =>
              after_line (RankingRow rank name total_likes article_count avg)
                         (ranking_rows rest)
          end
      end
  end.

Definition print_top_ranking (ranking : list (ranked_entry U)) (top_n : Z)
  : printed :=
  after_line (RankingTitle top_n)
    (after_line RankingColumns
       (after_line RankingRule (ranking_rows (Py.slice_to ranking top_n)))).

End Output.

(** ** ZennRankingOrchestrator *)

(** What a run left behind: the console lines, the files written with
    their rows, and how it ended. *)
Inductive ending :=
| Returned
| Escaped     (* an exception left the pipeline *).

Record pipeline_run := {
  console : list console_line;
  files : list (string * list (list string));
  how : ending
}.

Definition int_stat {U} (s : collected_stat U) : option (user_stat U) :=
  match s with
  | (username, JInt total_likes, JInt article_count) =>
      Some (username, total_likes, article_count)
  | _ => None
  end.

Fixpoint int_stats {U} (l : list (collected_stat U)) : option (list (user_stat U)) :=
  match l with
  | [] => Some []
  | s :: rest =>
      match int_stat s, int_stats rest with
      | Some s', Some rest' => Some (s' :: rest')
      | _, _ => None
      end
  end.

Definition output_file : string := "zenn_user_likes_ranking_top100.csv".

Section Orchestrator.

Variable feed : Z -> response.
Variable api : pykey -> response.
Variable discovery_pages : Z.
Variable top_ranking : Z.

(** The pipeline.  The stages after collection are typed as the script
    annotates them, on integer counts: what sorting, writing, summing and
    formatting other values do is not modelled, and a run in which a
    collected count is not an integer has no result here, as a run whose
    discovery exceeds [fuel] has none. *)
Definition execute_ranking_pipeline (fuel : nat) : option pipeline_run :=
  match discover_users_from_popular_articles feed discovery_pages fuel with
  | None => None
  | Some d =>
      if raised d then
        Some {| console := [PipelineStart]; files := []; how := Escaped |}
      else if decide (discovered_users d = ∅) then
        Some {| console := [PipelineStart; NoUsersError]; files := [];
                how := Returned |}
      else
        let collected := collect_all_user_stats api (discovered_users d) in
        match collected with
        | [] => Some {| console := [PipelineStart; NoStatsError]; files := [];
                        how := Returned |}
        | _ :: _ =>
            match int_stats collected with
            | None => None
            | Some user_stats =>
                let ranking := generate_top_ranking user_stats top_ranking in
                let written := [(output_file, export_to_csv ranking)] in
                match print_top_ranking ranking 30 with
                | PrintRaised _ table =>
                    Some {| console :=
                              ([PipelineStart; ExportDone output_file] ++ table);
                            files := written; how := Escaped |}
                | Printed table =>
                    let total_likes := Py.sum (map (fun s => s.1.2) user_stats) in
                    let total_articles := Py.sum (map (fun s => s.2) user_stats) in
                    Some {| console :=
                              ([PipelineStart; ExportDone output_file] ++ table ++
                               [PipelineComplete;
                               DiscoveredCount (Z.of_nat (size (discovered_users d)));
                               CollectedCount (Z.of_nat (length user_stats));
                               TotalLikes total_likes;
                               TotalArticles total_articles;
                               RankingSize (Z.of_nat (length ranking));
                               OutputFile output_file]);
                            files := written; how := Returned |}
                end
            end
        end
  end.

End Orchestrator.

(** * The article scripts: [zenn_analyzer.py] and [zenn_article_analyzer.py] *)

(** ** Further Python operations on decoded JSON *)

Module PyItem.

(** [d[k]] for a string key; [None] is the KeyError of a missing key or the
    TypeError of a value that is not a dict. *)
Definition getitem (d : json) (k : string) : option json :=
  match d with
  | JObj fields => PyJson.lookup_field k fields
  | _ => None
  end.

(** [v[0]]; [None] is the IndexError of an empty list or string, the
    KeyError of a dict (its keys are strings) or the TypeError of a value
    that cannot be subscripted. *)
Definition first (v : json) : option json :=
  match v with
  | JArr (x :: _) => Some x
  | JStr (String c _) => Some (JStr (String c EmptyString))
  | _ => None
  end.

(** [len(v)]; [None] is the TypeError of a value without a length. *)
Definition len (v : json) : option Z :=
  match v with
  | JArr items => Some (Z.of_nat (length items))
  | JObj fields => Some (Z.of_nat (length fields))
  | JStr s => Some (Z.of_nat (String.length s))
  | JNull | JInt _ => None
  end.

(** [sum(article["liked_count"] for article in items)], from the running
    total [acc]; [None] when a subscript raises or a count is not a number. *)
Fixpoint sum_liked (items : list json) (acc : Z) : option Z :=
  match items with
  | [] => Some acc
  | article :: rest =>
      match getitem article "liked_count" with
      | Some (JInt liked_count) => sum_liked rest (acc + liked_count)
      | _ => None
      end
  end.

End PyItem.

(** How a call that has no handler of its own ends. *)
Inductive outcome (A : Type) :=
| Return (a : A)
| Raise.

Arguments Return {A} a.
Arguments Raise {A}.

(** A call together with the pages it requested, in order. *)
Record traced (A : Type) := {
  result : outcome A;
  requested : list json
}.

Arguments result {A} t.
Arguments requested {A} t.

(** ** zenn_analyzer.py *)

Section Analyzer.

(** The articles endpoint, by URL and by the value put in the [page]
    parameter, which after the first page is whatever the last body named
    as [next_page]. *)
Variable api : string -> json -> response.

(** The name the last page gives: the display name of the publication of
    its first article, or, when that raises, the username of its user;
    [None] when the handler raises as well. *)
Definition resolve_user_name (articles : json) : option json :=
  match PyItem.first articles with
  | None => None
  | Some article =>
      match PyItem.getitem article "publication" ≫=
              (fun publication => PyItem.getitem publication "display_name") with
      | Some user_name => Some user_name
      | None =>
          PyItem.getitem article "user" ≫=
            (fun user => PyItem.getitem user "username")
      end
  end.

(** The [while True] loop of [parse_json_and_calculate]. *)
Fixpoint parse_loop (fuel : nat) (url : string) (page : json)
    (article_count total_liked_count : Z) (requests : list json)
  : option (traced (json * Z * Z)) :=
  match fuel with
  | O => None
  | S fuel' =>
      let requests' := requests ++ [page] in
      let raise := Some {| result := Raise; requested := requests' |} in
      match api url page with
      | ConnectionError => raise
      | Response ok _ body =>
          if ok then
            match body with
            | None => raise
            | Some json_data =>
                match PyItem.getitem json_data "articles" with
                | None => raise
                | Some articles =>
                    match PyItem.len articles, PyJson.iter articles with
                    | Some n, Some items =>
                        match PyItem.sum_liked items 0 with
                        | None => raise
                        | Some liked =>
                            let article_count' := article_count + n in
                            let total_liked_count' := total_liked_count + liked in
                            match PyItem.getitem json_data "next_page" with
                            | None => raise
                            | Some JNull =>
                                match resolve_user_name articles with
                                | None => raise
                                | Some user_name =>
                                    Some {| result :=
                                              Return (user_name, article_count',
                                                      total_liked_count');
                                            requested := requests' |}
                                end
                            | Some next_page =>
                                parse_loop fuel' url next_page article_count'
                                           total_liked_count' requests'
                            end
                        end
                    | _, _ => raise
                    end
                end
            end
          else parse_loop fuel' url page article_count total_liked_count requests'
      end
  end.

Definition parse_json_and_calculate (fuel : nat) (url : string)
  : option (traced (json * Z * Z)) :=
  parse_loop fuel url (JInt 1) 0 0 [].

(** The script body: the URL of each row of the list file is its first
    column, and each URL is parsed in turn.  [None] in the first is the
    IndexError of an empty row. *)
Fixpoint first_columns (rows : list (list string)) : option (list string) :=
  match rows with
  | [] => Some []
  | [] :: _ => None
  | (url :: _) :: rest =>
      match first_columns rest with
      | None => None
      | Some urls => Some (url :: urls)
      end
  end.

(** The list the script prints, (name, article count, total of likes) per
    URL; [fuel] bounds the iterations spent on each URL. *)
Fixpoint collect_totals (fuel : nat) (url_list : list string)
  : option (outcome (list (json * Z * Z))) :=
  match url_list with
  | [] => Some (Return [])
  | url :: rest =>
      match parse_json_and_calculate fuel url with
      | None => None
      | Some t =>
          match result t with
          | Raise => Some Raise
          | Return totals =>
              match collect_totals fuel rest with
              | None => None
              | Some Raise => Some Raise
              | Some (Return l) => Some (Return (totals :: l))
              end
          end
      end
  end.

Definition analyzer_script (fuel : nat) (rows : list (list string))
  : option (outcome (list (json * Z * Z))) :=
  match first_columns rows with
  | None => Some Raise
  | Some url_list => collect_totals fuel url_list
  end.

End Analyzer.

(** ** zenn_article_analyzer.py *)

(** (title, publication, username, liked count) *)
Definition article_info : Type := json * json * json * json.

(** The body of the [for article in articles] loop of [fetch_articles]:
    the tuple it appends, or [None] when a [.get] is applied to a value
    that is not a dict. *)
Definition article_tuple (article : json) : option article_info :=
  match PyJson.get article "title" (JStr "") with
  | None => None
  | Some title =>
      match PyJson.get article "publication" JNull with
      | None => None
      | Some publication =>
          match (if PyJson.truthy publication
                 then PyJson.get publication "display_name" (JStr "")
                 else Some (JStr "")) with
          | None => None
          | Some publication_name =>
              match PyJson.get article "user" (JObj []) with
              | None => None
              | Some user =>
                  match PyJson.get user "username" (JStr "") with
                  | None => None
                  | Some user_name =>
                      match PyJson.get article "liked_count" (JInt 0) with
                      | None => None
                      | Some liked_count =>
                          Some (title, publication_name, user_name, liked_count)
                      end
                  end
              end
          end
      end
  end.

Fixpoint article_tuples (items : list json) : option (list article_info) :=
  match items with
  | [] => Some []
  | article :: rest =>
      match article_tuple article with
      | None => None
      | Some info =>
          match article_tuples rest with
          | None => None
          | Some infos => Some (info :: infos)
          end
      end
  end.

Definition article_csv_header : list string :=
  ["記事名"; "Publication"; "投稿したユーザー名"; "いいね数"].

(** What a run of [process] did to the output file. *)
Inductive output_state :=
| Untouched     (* [write_to_csv] was not called *)
| Replaced (rows : list (list json))
                (* the file was opened for writing and holds these rows *)
| Unknown       (* [write_to_csv] raised: the file may be as before, emptied
                   or partly written *).

Record process_run := {
  ended : outcome unit;
  output : output_state
}.

Section ArticleAnalyzer.

Variable api : string -> json -> response.

(** The [while True] loop of [ZennAPIClient.fetch_articles]. *)
Fixpoint fetch_loop (fuel : nat) (url : string) (page : json)
    (articles_data : list article_info) (requests : list json)
  : option (traced (list article_info)) :=
  match fuel with
  | O => None
  | S fuel' =>
      let requests' := requests ++ [page] in
      let raise := Some {| result := Raise; requested := requests' |} in
      match api url page with
      | ConnectionError => raise
      | Response ok _ body =>
          if ok then
            match body with
            | None => raise
            | Some json_data =>
                match PyJson.get json_data "articles" (JArr []) with
                | None => raise
                | Some articles =>
                    match PyJson.iter articles ≫= article_tuples with
                    | None => raise
                    | Some infos =>
                        let articles_data' := articles_data ++ infos in
                        match PyJson.get json_data "next_page" JNull with
                        | None => raise
                        | Some JNull =>
                            Some {| result := Return articles_data';
                                    requested := requests' |}
                        | Some next_page =>
                            fetch_loop fuel' url next_page articles_data' requests'
                        end
                    end
                end
            end
          else Some {| result := Return articles_data; requested := requests' |}
      end
  end.

Definition fetch_articles (fuel : nat) (url : string)
  : option (traced (list article_info)) :=
  fetch_loop fuel url (JInt 1) [] [].

(** [CSVReader.read_csv], on the rows the csv reader yields. *)
Fixpoint read_csv (rows : list (list string)) : list string :=
  match rows with
  | [] => []
  | [] :: rest => read_csv rest
  | (url :: _) :: rest => url :: read_csv rest
  end.

(** [write_to_csv]: the rows the csv writer is given, the header and then
    the four values of each tuple. *)
Definition write_to_csv (data : list article_info) : list (list json) :=
  map JStr article_csv_header
  :: map (fun '(title, publication, user_name, liked_count) =>
            [title; publication; user_name; liked_count]) data.

(** The loop of [MainProcessor.process] over the URLs. *)
Fixpoint fetch_all (fuel : nat) (url_list : list string)
    (all_articles : list article_info) : option (outcome (list article_info)) :=
  match url_list with
  | [] => Some (Return all_articles)
  | url :: rest =>
      match fetch_articles fuel url with
      | None => None
      | Some t =>
          match result t with
          | Raise => Some Raise
          | Return articles => fetch_all fuel rest (all_articles ++ articles)
          end
      end
  end.

(** [MainProcessor.process].  [url_file] is what reading the URL list
    gives: its rows, or [None] when opening or reading it raises.
    [writer rows] tells whether opening the output file and writing [rows]
    to it goes through. *)
Definition process (fuel : nat) (url_file : option (list (list string)))
    (writer : list (list json) -> bool) : option process_run :=
  match url_file with
  | None => Some {| ended := Raise; output := Untouched |}
  | Some rows =>
      match fetch_all fuel (read_csv rows) [] with
      | None => None
      | Some Raise => Some {| ended := Raise; output := Untouched |}
      | Some (Return all_articles) =>
          let written := write_to_csv all_articles in
          if writer written
          then Some {| ended := Return (); output := Replaced written |}
          else Some {| ended := Raise; output := Unknown |}
      end
  end.

End ArticleAnalyzer.

(** ** zenn_user_ranking.py: the entry point *)

(** [main]: fifty discovery pages and a ranking of the top hundred. *)
Definition main (feed : Z -> response) (api : pykey -> response) (fuel : nat)
  : option pipeline_run :=
  execute_ranking_pipeline feed api 50 100 fuel.

(** Lexicographic [>=] on (likes, articles) pairs. *)
Definition lex_ge (a b : Z * Z) : Prop :=
  b.1 < a.1 \/ (a.1 = b.1 /\ b.2 <= a.2).

Definition key_ge {A} (key : A -> Z * Z) (x y : A) : Prop :=
  lex_ge (key x) (key y).

(** ** Predicates and inputs the properties are stated with *)

(** The entry the ranking loop appends for position [i]. *)
Definition number {U} (p : Z * user_stat U) : ranked_entry U :=
  let '(i, (username, total_likes, article_count)) := p in
  (i, username, total_likes, article_count).

(** An article of the feed posted by [username]. *)
Definition article_by (username : string) : json :=
  JObj [("user", JObj [("username", JStr username)])].

(** The body of a feed page. *)
Definition page_body (articles : list json) (next_page : json) : json :=
  JObj [("articles", JArr articles); ("next_page", next_page)].

(** Pages with users a, b, then b, c, then no further page. *)
Definition scenario_feed (page : Z) : response :=
  if page =? 1 then
    Response true 200 (Some (page_body [article_by "a"; article_by "b"] (JInt 2)))
  else if page =? 2 then
    Response true 200 (Some (page_body [article_by "b"; article_by "c"] JNull))
  else Response false 404 None.

(** What discovery gives on it: both pages requested, users a, b, c. *)
Definition scenario_discovery : discovery :=
  {| discovered_users := {[ KStr "a"; KStr "b"; KStr "c" ]};
     fetched := [1; 2]; raised := false |}.

(** A feed that names page 1 as the next page of every page. *)
Definition looping_feed (page : Z) : response :=
  Response true 200 (Some (page_body [article_by "a"] (JInt 1))).


(** A page of articles that name no user, with a further page. *)
Definition anonymous_feed (page : Z) : response :=
  Response true 200
    (Some (page_body [JObj []; JObj [("user", JObj [])];
                      JObj [("user", JObj [("username", JNull)])];
                      JObj [("user", JObj [("username", JStr "")])]]
                     (JInt (page + 1)))).

(** The cursor of every ok page is null, absent, or an integer beyond the
    page requested. *)
Definition advancing (feed : Z -> response) : Prop :=
  forall page status data next_page,
    feed page = Response true status (Some data) ->
    PyJson.get data "next_page" JNull = Some next_page ->
    next_page = JNull \/ exists p, next_page = JInt p /\ page < p.

(** The member the discovery loop adds for an article: its truthy
    [user.username], if it has one that can be hashed. *)
Definition article_key (article : json) : option pykey :=
  match PyJson.get article "user" (JObj []) ≫=
          (fun user => PyJson.get user "username" JNull) with
  | Some (JInt z) => if z =? 0 then None else Some (KInt z)
  | Some (JStr s) => if String.eqb s "" then None else Some (KStr s)
  | _ => None
  end.





Section DiscoveryProgress.

Variable feed : Z -> response.
Variable max_pages : Z.

(** The state of the discovery method after at most [fuel] iterations of
    its loop, whether or not the loop has ended by then: the set it holds,
    the pages it has requested, and whether an exception has escaped. *)
Fixpoint discover_progress (fuel : nat) (page : json) (discovered : gset pykey)
    (requests : list Z) : discovery :=
  match fuel with
  | O => {| discovered_users := discovered; fetched := requests; raised := false |}
  | S fuel' =>
      match page with
      | JInt p =>
          if p <=? max_pages then
            match process_page feed p discovered with
            | Break discovered' =>
                {| discovered_users := discovered';
                   fetched := requests ++ [p]; raised := false |}
            | NextPage discovered' next_page =>
                discover_progress fuel' next_page discovered' (requests ++ [p])
            end
          else {| discovered_users := discovered;
                  fetched := requests; raised := false |}
      | _ => {| discovered_users := discovered;
                fetched := requests; raised := true |}
      end
  end.

End DiscoveryProgress.

(** An article whose [user.username] is absent, null or the empty string. *)
Definition falsy_username (article : json) : bool :=
  match article with
  | JObj fields =>
      match from_option id (JObj []) (PyJson.lookup_field "user" fields) with
      | JObj user_fields =>
          match PyJson.lookup_field "username" user_fields with
          | None | Some JNull | Some (JStr EmptyString) => true
          | Some _ => false
          end
      | _ => false
      end
  | _ => false
  end.

(** The ways a lookup can fail, read off the response. *)
Inductive lookup_failure : response -> Prop :=
| transport_exception :
    lookup_failure ConnectionError
| status_not_ok status body :
    lookup_failure (Response false status body)
| body_undecodable status :
    lookup_failure (Response true status None)
| body_not_object status data :
    PyJson.get data "user" (JObj []) = None ->
    lookup_failure (Response true status (Some data))
| user_not_object status data user :
    PyJson.get data "user" (JObj []) = Some user ->
    PyJson.get user "total_liked_count" (JInt 0) = None ->
    lookup_failure (Response true status (Some data))
| both_fields_missing status data fields :
    PyJson.get data "user" (JObj []) = Some (JObj fields) ->
    PyJson.lookup_field "total_liked_count" fields = None ->
    PyJson.lookup_field "articles_count" fields = None ->
    lookup_failure (Response true status (Some data)).

(** A user endpoint whose body lacks the total of likes. *)
Definition likes_missing_api (username : string) : response :=
  Response true 200 (Some (JObj [("user", JObj [("articles_count", JInt 7)])])).

(** A user endpoint that answers 404 for u1 and a full record otherwise. *)
Definition u1_missing_api (username : string) : response :=
  if String.eqb username "u1" then Response false 404 None
  else Response true 200
         (Some (JObj [("user", JObj [("total_liked_count", JInt 12);
                                     ("articles_count", JInt 3)])])).

(** A popular-articles feed whose first page has no articles. *)
Definition empty_feed (page : Z) : response :=
  Response true 200 (Some (page_body [] JNull)).

(** A user endpoint that cannot be reached. *)
Definition unreachable_api (username : pykey) : response := ConnectionError.

(** The line the display prints for one entry, under the name that the
    format gives its username. *)
Definition display_row {U} (name : string) (e : ranked_entry U) : console_line :=
  RankingRow (entry_rank e) name e.1.2 e.2
             (Round (TrueDiv e.1.2 (Z.max e.2 1)) 1).

(** A ranking whose second entry has no articles. *)
Definition display_ranking : list (ranked_entry string) :=
  [(1, "z", 100, 4); (2, "y", 50, 0)].

(** The articles the discovery loop iterates over on a page. *)
Definition page_items (feed : Z -> response) (page : Z) : list json :=
  match feed page with
  | Response true _ (Some data) =>
      default [] (PyJson.get data "articles" (JArr []) ≫= PyJson.iter)
  | _ => []
  end.

(** The cursor of every ok page is null, absent or an integer. *)
Definition integer_cursors (feed : Z -> response) : Prop :=
  forall page status data next_page,
    feed page = Response true status (Some data) ->
    PyJson.get data "next_page" JNull = Some next_page ->
    next_page = JNull \/ exists p, next_page = JInt p.

(** A user endpoint for the users of the scenario feed: a record for a
    and c, and a 404 for b. *)
Definition scenario_api (username : pykey) : response :=
  match username with
  | KStr "a" =>
      Response true 200
        (Some (JObj [("user", JObj [("total_liked_count", JInt 10);
                                    ("articles_count", JInt 0)])]))
  | KStr "b" => Response false 404 None
  | _ =>
      Response true 200
        (Some (JObj [("user", JObj [("total_liked_count", JInt 30);
                                    ("articles_count", JInt 3)])]))
  end.

(** The run of the pipeline on the scenario feed and endpoint. *)
Definition scenario_run : pipeline_run :=
  Eval vm_compute in
    default {| console := []; files := []; how := Escaped |}
            (execute_ranking_pipeline scenario_feed scenario_api 50 100 3).

(** The sum of a list of integers. *)
Definition total (l : list Z) : Z := foldr Z.add 0 l.

(** The articles [parse_json_and_calculate] counts on a page. *)
Definition page_articles (api : string -> json -> response) (url : string)
    (page : json) : list json :=
  match api url page with
  | Response true _ (Some data) =>
      default [] (PyItem.getitem data "articles" ≫= PyJson.iter)
  | _ => []
  end.

(** The likes of an article, where it has a count. *)
Definition liked_count_of (article : json) : Z :=
  match PyItem.getitem article "liked_count" with
  | Some (JInt liked_count) => liked_count
  | _ => 0
  end.

(** The tuples [fetch_articles] takes from a page. *)
Definition page_tuples (api : string -> json -> response) (url : string)
    (page : json) : list article_info :=
  match api url page with
  | Response true _ (Some data) =>
      default [] ((PyJson.get data "articles" (JArr []) ≫= PyJson.iter)
                    ≫= article_tuples)
  | _ => []
  end.

(** An articles endpoint with two pages of articles for every URL. *)
Definition two_page_api (url : string) (page : json) : response :=
  match page with
  | JInt 1 =>
      Response true 200
        (Some (JObj [("articles",
                      JArr [JObj [("title", JStr "t1"); ("liked_count", JInt 3);
                                  ("user", JObj [("username", JStr "a")])];
                            JObj [("title", JStr "t2"); ("liked_count", JInt 4);
                                  ("user", JObj [("username", JStr "a")])]]);
                     ("next_page", JInt 2)]))
  | JInt 2 =>
      Response true 200
        (Some (JObj [("articles",
                      JArr [JObj [("title", JStr "t3"); ("liked_count", JInt 5);
                                  ("publication", JObj [("display_name", JStr "P")]);
                                  ("user", JObj [("username", JStr "a")])]]);
                     ("next_page", JNull)]))
  | _ => Response false 404 None
  end.

(** An articles endpoint that answers 503 to every request. *)
Definition unavailable_api (url : string) (page : json) : response :=
  Response false 503 None.

(** An articles endpoint whose only page has no articles. *)
Definition no_articles_api (url : string) (page : json) : response :=
  Response true 200 (Some (JObj [("articles", JArr []); ("next_page", JNull)])).

(** An articles endpoint whose every page names itself as the next. *)
Definition self_cursor_api (url : string) (page : json) : response :=
  Response true 200 (Some (JObj [("articles", JArr []); ("next_page", page)])).

(** The likes in a tuple of [fetch_articles], where they are a number. *)
Definition info_likes (info : article_info) : Z :=
  match info.2 with
  | JInt liked_count => liked_count
  | _ => 0
  end.

(** The rows of a list file with two URLs and an empty line between them. *)
Definition url_rows : list (list string) := [["u1"; "x"]; []; ["u2"]].

(** The rows of a list file with two URLs and no empty line. *)
Definition url_rows_full : list (list string) := [["u1"; "x"]; ["u2"]].

(** An output file that can always be written. *)
Definition always_writes (rows : list (list json)) : bool := true.

(** The two-page endpoint, unreachable for the URL u2. *)
Definition second_url_fails_api (url : string) (page : json) : response :=
  if String.eqb url "u2" then ConnectionError else two_page_api url page.

(** The run of [process] on the URL list and the two-page endpoint. *)
Definition process_scenario_run : process_run :=
  Eval vm_compute in
    default {| ended := Raise; output := Untouched |}
            (process two_page_api 2 (Some url_rows) always_writes).

(** * Properties *)

(** ** Python built-ins *)

Lemma tuple_lt_false a b : Py.tuple_lt a b = false -> lex_ge a b.
Proof. unfold Py.tuple_lt, lex_ge. destruct a, b; simpl. lia. Qed.

Lemma tuple_lt_true a b : Py.tuple_lt a b = true -> lex_ge b a.
Proof. unfold Py.tuple_lt, lex_ge. destruct a, b; simpl. lia. Qed.

Lemma lex_ge_trans a b c : lex_ge a b -> lex_ge b c -> lex_ge a c.
Proof. unfold lex_ge. lia. Qed.

Section SortedReverse.

Context {A : Type} (key : A -> Z * Z).

Lemma insert_desc_perm x l : Py.insert_desc key x l ≡ₚ x :: l.
Proof.
  induction l as [|y r IH]; simpl; [done|].
  destruct (Py.tuple_lt (key x) (key y)); [|done].
  rewrite IH. apply Permutation_swap.
Qed.

Lemma sorted_reverse_perm l : Py.sorted_reverse key l ≡ₚ l.
Proof.
  induction l as [|x r IH]; simpl; [done|].
  by rewrite insert_desc_perm, IH.
Qed.

Lemma insert_desc_hd x y l :
  (key_ge key) y x -> HdRel (key_ge key) y l -> HdRel (key_ge key) y (Py.insert_desc key x l).
Proof.
  intros Hyx Hhd. destruct l as [|z r]; simpl.
  - by constructor.
  - destruct (Py.tuple_lt (key x) (key z)); constructor; [|done].
    by inversion Hhd.
Qed.

Lemma insert_desc_sorted x l :
  Sorted (key_ge key) l -> Sorted (key_ge key) (Py.insert_desc key x l).
Proof.
  induction 1 as [|y r Hs IH Hhd]; simpl.
  - repeat constructor.
  - destruct (Py.tuple_lt (key x) (key y)) eqn:E.
    + constructor; [done|].
      apply insert_desc_hd; [|done]. by apply tuple_lt_true.
    + constructor; [by constructor|].
      constructor. by apply tuple_lt_false.
Qed.

Lemma sorted_reverse_sorted l : Sorted (key_ge key) (Py.sorted_reverse key l).
Proof.
  induction l as [|x r IH]; simpl; [constructor|].
  by apply insert_desc_sorted.
Qed.

(** Stability: entries with one key keep their original order. *)
Lemma insert_desc_filter (P : A -> Prop) `{!forall x, Decision (P x)} x l :
  (forall y, P y -> P x -> Py.tuple_lt (key x) (key y) = true -> False) ->
  filter P (Py.insert_desc key x l) = filter P (x :: l).
Proof.
  intros Hk. induction l as [|y r IH]; simpl; [done|].
  destruct (Py.tuple_lt (key x) (key y)) eqn:E; [|done].
  rewrite filter_cons, IH, !filter_cons.
  destruct (decide (P y)) as [Hy|]; [|done].
  destruct (decide (P x)) as [Hx|]; [|done].
  destruct (Hk y Hy Hx E).
Qed.

Lemma sorted_reverse_stable (k : Z * Z) l :
  filter (fun x => key x = k) (Py.sorted_reverse key l)
  = filter (fun x => key x = k) l.
Proof.
  induction l as [|x r IH]; simpl; [done|].
  rewrite insert_desc_filter.
  - by rewrite !filter_cons, IH.
  - intros y Hy Hx. rewrite Hy, Hx. unfold Py.tuple_lt. lia.
Qed.

Lemma sorted_take_desc n l : Sorted (key_ge key) l -> Sorted (key_ge key) (take n l).
Proof.
  intros Hs. revert n. induction Hs as [|y r Hs IH Hhd]; intros [|n]; simpl;
    try constructor; [apply IH|].
  destruct Hhd; destruct n; simpl; by constructor.
Qed.

Lemma slice_to_sorted l n : Sorted (key_ge key) l -> Sorted (key_ge key) (Py.slice_to l n).
Proof. unfold Py.slice_to. destruct (n <? 0); apply sorted_take_desc. Qed.

Lemma sorted_consecutive l i x y :
  Sorted (key_ge key) l -> l !! i = Some x -> l !! S i = Some y -> (key_ge key) x y.
Proof.
  intros Hs. revert i. induction Hs as [|z r Hs IH Hhd]; intros i; [done|].
  destruct i as [|i]; simpl.
  - intros [= ->] Hy. destruct Hhd; simpl in Hy; [done|]. by injection Hy as ->.
  - apply IH.
Qed.

End SortedReverse.

Lemma slice_to_length {A} (l : list A) (n : Z) :
  Z.of_nat (length (Py.slice_to l n))
  = if n <? 0 then Z.max 0 (Z.of_nat (length l) + n)
    else Z.min n (Z.of_nat (length l)).
Proof.
  unfold Py.slice_to. destruct (n <? 0) eqn:E; rewrite length_take; lia.
Qed.

Lemma enumerate_length {A} (l : list A) start :
  length (Py.enumerate start l) = length l.
Proof. revert start. induction l; intros; simpl; [done|]. by rewrite IHl. Qed.

Lemma enumerate_fst {A} (l : list A) start :
  map fst (Py.enumerate start l) = seqZ start (Z.of_nat (length l)).
Proof.
  revert start. induction l as [|x r IH]; intros start; [done|].
  simpl length. rewrite seqZ_cons by lia. simpl. rewrite IH.
  do 2 f_equal; lia.
Qed.

Lemma enumerate_snd {A} (l : list A) start :
  map snd (Py.enumerate start l) = l.
Proof. revert start. induction l; intros; simpl; [done|]. by rewrite IHl. Qed.

(** ** RankingGenerator.generate_top_ranking *)

Section RankingFacts.

Context {U : Type}.
Implicit Types (stats : list (user_stat U)) (top_n : Z).

Lemma generate_top_ranking_eq stats top_n :
  generate_top_ranking stats top_n
  = map number (Py.enumerate 1 (Py.slice_to (Py.sorted_reverse stat_key stats) top_n)).
Proof. reflexivity. Qed.

Lemma number_rank (p : Z * user_stat U) : entry_rank (number p) = p.1.
Proof. by destruct p as [i [[u l] a]]. Qed.

Lemma number_stat (p : Z * user_stat U) : entry_stat (number p) = p.2.
Proof. by destruct p as [i [[u l] a]]. Qed.

Lemma ranking_stats stats top_n :
  map entry_stat (generate_top_ranking stats top_n)
  = Py.slice_to (Py.sorted_reverse stat_key stats) top_n.
Proof.
  rewrite generate_top_ranking_eq, map_map.
  rewrite (map_ext _ snd) by apply number_stat.
  apply enumerate_snd.
Qed.

Lemma ranking_length stats top_n :
  length (generate_top_ranking stats top_n)
  = length (Py.slice_to (Py.sorted_reverse stat_key stats) top_n).
Proof. by rewrite <- ranking_stats, length_map. Qed.

Lemma ranking_ranks stats top_n :
  map entry_rank (generate_top_ranking stats top_n)
  = seqZ 1 (Z.of_nat (length (generate_top_ranking stats top_n))).
Proof.
  rewrite ranking_length, generate_top_ranking_eq, map_map.
  rewrite (map_ext _ fst) by apply number_rank.
  apply enumerate_fst.
Qed.

Lemma entry_key_stat (e : ranked_entry U) : entry_key e = stat_key (entry_stat e).
Proof. by destruct e as [[[i u] l] a]. Qed.

End RankingFacts.

(** C1: the ranking lists a prefix of the stats sorted descending by
    (total_liked_count, article_count): consecutive entries are in
    lexicographic [>=] order of that pair, and on the stats x, y, z of the
    scenario with [top_n = 2] the ranking is z then y. *)
Theorem generate_top_ranking_sorted :
  (forall (U : Type) (stats : list (user_stat U)) (top_n : Z),
      (exists sorted_users,
          sorted_users ≡ₚ stats /\
          Sorted (key_ge stat_key) sorted_users /\
          map entry_stat (generate_top_ranking stats top_n)
          = Py.slice_to sorted_users top_n) /\
      (forall i e1 e2,
          generate_top_ranking stats top_n !! i = Some e1 ->
          generate_top_ranking stats top_n !! S i = Some e2 ->
          lex_ge (entry_key e1) (entry_key e2))) /\
  generate_top_ranking [("x", 50, 5); ("y", 50, 10); ("z", 100, 1)] 2
  = [(1, "z", 100, 1); (2, "y", 50, 10)].
Proof.
  split; [|reflexivity].
  intros U stats top_n. split.
  - exists (Py.sorted_reverse stat_key stats).
    split; [apply sorted_reverse_perm|].
    split; [apply sorted_reverse_sorted|apply ranking_stats].
  - intros i e1 e2 H1 H2. rewrite !entry_key_stat.
    apply (sorted_consecutive stat_key
             (map entry_stat (generate_top_ranking stats top_n)) i).
    + rewrite ranking_stats. apply slice_to_sorted, sorted_reverse_sorted.
    + by rewrite list_lookup_fmap, H1.
    + by rewrite list_lookup_fmap, H2.
Qed.

Lemma generate_top_ranking_sorted_witness :
  lex_ge (entry_key (1, "z", 100, 1)) (entry_key (2, "y", 50, 10)).
Proof.
  apply (proj2 (proj1 generate_top_ranking_sorted string
                  [("x", 50, 5); ("y", 50, 10); ("z", 100, 1)] 2) 0%nat);
    reflexivity.
Defined.

(** C2, as the code has it: for [top_n >= 0] the ranking has
    [min(top_n, len(stats))] entries; a negative [top_n] is a slice bound
    counted from the end, leaving [max(0, len(stats) + top_n)] entries. *)
Theorem generate_top_ranking_length (U : Type) (stats : list (user_stat U)) (top_n : Z) :
  Z.of_nat (length (generate_top_ranking stats top_n))
  = if top_n <? 0 then Z.max 0 (Z.of_nat (length stats) + top_n)
    else Z.min top_n (Z.of_nat (length stats)).
Proof.
  rewrite ranking_length, slice_to_length.
  by rewrite (Permutation_length (sorted_reverse_perm stat_key stats)).
Qed.

(** C2 as stated fails for a negative [top_n]: with three stats and
    [top_n = -1] the ranking has two entries, not [min(-1, 3)]. *)
Lemma generate_top_ranking_length_negative :
  let stats := [("x", 50, 5); ("y", 50, 10); ("z", 100, 1)] in
  generate_top_ranking stats (-1) = [(1, "z", 100, 1); (2, "y", 50, 10)] /\
  Z.of_nat (length (generate_top_ranking stats (-1)))
  <> Z.min (-1) (Z.of_nat (length stats)).
Proof. split; [reflexivity|]. vm_compute. discriminate. Qed.

(** C3: the ranks of the ranking are exactly 1, 2, ..., len(ranking) in
    order: strictly increasing, without gaps, and no rank occurs twice. *)
Theorem generate_top_ranking_ranks (U : Type) (stats : list (user_stat U)) (top_n : Z) :
  let ranking := generate_top_ranking stats top_n in
  map entry_rank ranking = seqZ 1 (Z.of_nat (length ranking)) /\
  StronglySorted Z.lt (map entry_rank ranking) /\
  NoDup (map entry_rank ranking).
Proof.
  intros ranking. unfold ranking. rewrite ranking_ranks.
  split; [done|]. split; [|apply NoDup_seqZ].
  generalize (length (generate_top_ranking stats top_n)) as n, 1.
  induction n as [|n IH]; intros m; [constructor|].
  rewrite seqZ_cons by lia. constructor.
  - replace (Z.pred (Z.of_nat (S n))) with (Z.of_nat n) by lia. apply IH.
  - apply Forall_forall. intros x Hx. apply elem_of_seqZ in Hx. lia.
Qed.

(** ** ZennUserDiscovery *)

Lemma set_add_grows s v s' : PyJson.set_add s v = Some s' -> s ⊆ s'.
Proof. destruct v; simpl; intros ?; simplify_eq; set_solver. Qed.

Lemma set_add_again s v s' :
  PyJson.set_add s v = Some s' -> PyJson.set_add s' v = Some s'.
Proof.
  destruct v; simpl; intros ?; simplify_eq; f_equal;
    apply set_eq; intros x; rewrite !elem_of_union; tauto.
Qed.

Lemma add_usernames_grows articles users :
  match add_usernames articles users with
  | Done users' | Caught users' => users ⊆ users'
  end.
Proof.
  revert users. induction articles as [|a rest IH]; intros users; simpl; [done|].
  destruct (PyJson.get a "user" (JObj [])) as [user|]; [|done].
  destruct (PyJson.get user "username" JNull) as [username|]; [|done].
  destruct (PyJson.truthy username); [|apply IH].
  destruct (PyJson.set_add users username) as [users1|] eqn:E; [|done].
  apply set_add_grows in E. specialize (IH users1).
  destruct (add_usernames rest users1); set_solver.
Qed.

Lemma set_add_absorbed s v s' w :
  PyJson.set_add s v = Some s' -> s' ⊆ w -> PyJson.set_add w v = Some w.
Proof.
  destruct v; simpl; intros ? Hsub; simplify_eq; f_equal;
    apply set_eq; intros x; rewrite elem_of_union, elem_of_singleton;
    (split; [intros [->|]; [apply Hsub, elem_of_union_l, elem_of_singleton|]|]; tauto).
Qed.

Lemma add_usernames_absorbed articles users users' :
  add_usernames articles users = Done users' ->
  forall w, users' ⊆ w -> add_usernames articles w = Done w.
Proof.
  revert users. induction articles as [|a rest IH]; intros users; simpl; [done|].
  destruct (PyJson.get a "user" (JObj [])) as [user|]; [|done].
  destruct (PyJson.get user "username" JNull) as [username|]; [|done].
  destruct (PyJson.truthy username); [|apply IH].
  destruct (PyJson.set_add users username) as [users1|] eqn:E; [|done].
  intros Hd w Hsub.
  pose proof (add_usernames_grows rest users1) as Hg. rewrite Hd in Hg.
  rewrite (set_add_absorbed _ _ _ w E) by (by transitivity users').
  by eapply IH.
Qed.

Lemma add_usernames_app l1 l2 users :
  add_usernames (l1 ++ l2) users
  = match add_usernames l1 users with
    | Done users' => add_usernames l2 users'
    | Caught users' => Caught users'
    end.
Proof.
  revert users. induction l1 as [|a rest IH]; intros users; simpl; [done|].
  destruct (PyJson.get a "user" (JObj [])) as [user|]; [|done].
  destruct (PyJson.get user "username" JNull) as [username|]; [|done].
  destruct (PyJson.truthy username); [|apply IH].
  destruct (PyJson.set_add users username) as [users1|]; [apply IH|done].
Qed.







Section DiscoveryFacts.

Variable feed : Z -> response.
Variable max_pages : Z.

Lemma process_page_grows page users :
  match process_page feed page users with
  | Break users' | NextPage users' _ => users ⊆ users'
  end.
Proof.
  unfold process_page.
  destruct (feed page) as [|ok st [data|]]; [done|destruct ok; simpl..]; try done.
  destruct (PyJson.get data "articles" (JArr [])) as [articles|]; [|done].
  destruct (PyJson.truthy articles); simpl; [|done].
  destruct (PyJson.iter articles) as [items|]; [|done].
  pose proof (add_usernames_grows items users) as Hg.
  destruct (add_usernames items users) as [users'|users']; [|done].
  destruct (PyJson.get data "next_page" JNull) as [[]|]; done.
Qed.

Lemma process_page_next page users users' next_page :
  process_page feed page users = NextPage users' next_page ->
  exists status data,
    feed page = Response true status (Some data) /\
    PyJson.get data "next_page" JNull = Some next_page /\
    next_page <> JNull.
Proof.
  unfold process_page.
  destruct (feed page) as [|ok st [data|]]; [done|destruct ok; simpl..]; try done.
  destruct (PyJson.get data "articles" (JArr [])) as [articles|]; [|done].
  destruct (PyJson.truthy articles); simpl; [|done].
  destruct (PyJson.iter articles) as [items|]; [|done].
  destruct (add_usernames items users) as [users1|users1]; [|done].
  destruct (PyJson.get data "next_page" JNull) as [np|] eqn:E; [|done].
  intros Hn. exists st, data. split; [done|].
  destruct np; try done; by injection Hn as _ <-.
Qed.




Lemma discover_loop_nodup fuel page users requests d :
  discover_loop feed max_pages fuel page users requests = Some d ->
  NoDup (elements (discovered_users d)).
Proof. intros _. apply NoDup_elements. Qed.

End DiscoveryFacts.



Lemma add_usernames_falsy article rest users :
  falsy_username article = true ->
  add_usernames (article :: rest) users = add_usernames rest users.
Proof.
  destruct article as [| | | |fields]; try done. cbn.
  destruct (PyJson.lookup_field "user" fields) as [[| | | |user_fields]|]; cbn; try done.
  destruct (PyJson.lookup_field "username" user_fields) as [[| |[|c s]| |]|];
    cbn; done.
Qed.

Lemma add_usernames_all_falsy items users :
  forallb falsy_username items = true -> add_usernames items users = Done users.
Proof.
  induction items as [|a rest IH]; [done|].
  intros [Ha Hrest]%andb_prop. rewrite add_usernames_falsy by done. by apply IH.
Qed.

(** C4: the set that discovery returns holds every username once, however
    often it appears within a page or across pages: its members, as the
    collector iterates over them, have no duplicates, adding a username
    again leaves the set as it is, and so does a second pass over the same
    articles.  On pages with users a, b then b, c and
    no further page the set is exactly a, b, c. *)
Theorem discovery_set_no_duplicates :
  (forall feed max_pages fuel d,
      discover_users_from_popular_articles feed max_pages fuel = Some d ->
      NoDup (elements (discovered_users d))) /\
  (forall users username users',
      PyJson.set_add users username = Some users' ->
      PyJson.set_add users' username = Some users') /\
  (forall articles users users',
      add_usernames articles users = Done users' ->
      add_usernames (articles ++ articles) users = Done users') /\
  discover_users_from_popular_articles scenario_feed 50 3 = Some scenario_discovery.
Proof.
  split; [|split; [|split]].
  - intros feed max_pages fuel d. apply discover_loop_nodup.
  - exact set_add_again.
  - intros articles users users' Hd. rewrite add_usernames_app, Hd.
    by apply (add_usernames_absorbed _ _ _ Hd).
  - vm_compute. reflexivity.
Qed.

Lemma discovery_set_no_duplicates_witness :
  NoDup (elements (discovered_users scenario_discovery)).
Proof.
  apply (proj1 discovery_set_no_duplicates scenario_feed 50 3%nat scenario_discovery).
  vm_compute. reflexivity.
Defined.


Lemma scenario_feed_advancing : advancing scenario_feed.
Proof.
  intros page st data np. unfold scenario_feed.
  destruct (Z.eqb_spec page 1) as [->|]; [|destruct (Z.eqb_spec page 2) as [->|]].
  - intros [= <- <-]. cbn. intros [= <-]. right. exists 2. split; [done|lia].
  - intros [= <- <-]. cbn. intros [= <-]. by left.
  - done.
Qed.



(** C10: an article whose [user.username] is absent, null or the empty
    string adds nothing to the set, and a page made only of such articles
    is not an empty page: it leaves the set as it was and the loop goes on
    to the next page the body names (ending only if that is null). *)
Theorem falsy_usernames_dropped :
  (forall article rest users,
      falsy_username article = true ->
      add_usernames (article :: rest) users = add_usernames rest users) /\
  (forall feed page status data items next_page users,
      feed page = Response true status (Some data) ->
      PyJson.get data "articles" (JArr []) = Some (JArr items) ->
      items <> [] ->
      forallb falsy_username items = true ->
      PyJson.get data "next_page" JNull = Some next_page ->
      process_page feed page users
      = match next_page with
        | JNull => Break users
        | _ => NextPage users next_page
        end).
Proof.
  split; [exact add_usernames_falsy|].
  intros feed page st data items np users Hf Ha Hne Hall Hnp.
  unfold process_page. rewrite Hf. cbn. rewrite Ha.
  destruct items as [|a rest]; [done|]. cbn [PyJson.truthy negb PyJson.iter].
  rewrite add_usernames_all_falsy by done. rewrite Hnp. by destruct np.
Qed.

Lemma falsy_usernames_dropped_witness :
  process_page anonymous_feed 1 {[ KStr "a" ]} = NextPage {[ KStr "a" ]} (JInt 2).
Proof.
  apply (proj2 falsy_usernames_dropped anonymous_feed 1 200
           (page_body [JObj []; JObj [("user", JObj [])];
                       JObj [("user", JObj [("username", JNull)])];
                       JObj [("user", JObj [("username", JStr "")])]] (JInt 2))
           [JObj []; JObj [("user", JObj [])];
            JObj [("user", JObj [("username", JNull)])];
            JObj [("user", JObj [("username", JStr "")])]]
           (JInt 2) {[ KStr "a" ]});
    [reflexivity|reflexivity|discriminate|reflexivity|reflexivity].
Defined.

(** ** ZennUserStatsCollector *)

Section CollectorFacts.

Context {U : Type} `{Countable U}.
Variable api : U -> response.

Lemma get_not_object_twice user k1 d1 k2 d2 :
  PyJson.get user k1 d1 = None -> PyJson.get user k2 d2 = None.
Proof. by destruct user. Qed.

Lemma collect_user_stats_failure username :
  lookup_failure (api username) ->
  collect_user_stats api username = (username, JInt 0, JInt 0).
Proof.
  unfold collect_user_stats.
  inversion 1 as [| | |st data Hd|st data user Hd Hu|st data fields Hd Hl Ha];
    try done; cbn; rewrite Hd; try done.
  - by rewrite Hu.
  - cbn. by rewrite Hl, Ha.
Qed.

Lemma collect_user_stats_record username status data fields :
  api username = Response true status (Some data) ->
  PyJson.get data "user" (JObj []) = Some (JObj fields) ->
  collect_user_stats api username
  = (username,
     from_option id (JInt 0) (PyJson.lookup_field "total_liked_count" fields),
     from_option id (JInt 0) (PyJson.lookup_field "articles_count" fields)).
Proof. intros Hr Hd. unfold collect_user_stats. by rewrite Hr; cbn; rewrite Hd. Qed.

Lemma collect_user_stats_username username :
  (collect_user_stats api username).1.1 = username.
Proof.
  unfold collect_user_stats.
  destruct (api username) as [|[] st [data|]]; cbn; try done.
  destruct (PyJson.get data "user" (JObj [])) as [user|]; [|done].
  destruct (PyJson.get user "total_liked_count" (JInt 0)); [|done].
  by destruct (PyJson.get user "articles_count" (JInt 0)).
Qed.

Lemma collect_all_usernames (usernames : gset U) :
  map (fun s : collected_stat U => s.1.1) (collect_all_user_stats api usernames)
  = elements usernames.
Proof.
  unfold collect_all_user_stats. rewrite map_map.
  rewrite (map_ext _ id) by apply collect_user_stats_username.
  apply map_id.
Qed.

End CollectorFacts.

(** C5, as the code has it: a lookup that fails by a transport exception,
    a status that is not ok, a body that cannot be decoded or is not an
    object, or a user record that is not an object or lacks both counts,
    gives the stat (username, 0, 0); a record lacking one count gets 0 for
    that count and keeps the other.  Collection goes through the whole set:
    its output has one stat per username of the set, each under its own
    username, and the stat of any member is the one its lookup gives. *)
Theorem collector_degrades (U : Type) `{Countable U} (api : U -> response) :
  (forall username,
      lookup_failure (api username) ->
      collect_user_stats api username = (username, JInt 0, JInt 0)) /\
  (forall username status data fields,
      api username = Response true status (Some data) ->
      PyJson.get data "user" (JObj []) = Some (JObj fields) ->
      collect_user_stats api username
      = (username,
         from_option id (JInt 0) (PyJson.lookup_field "total_liked_count" fields),
         from_option id (JInt 0) (PyJson.lookup_field "articles_count" fields))) /\
  (forall usernames : gset U,
      map (fun s : collected_stat U => s.1.1) (collect_all_user_stats api usernames)
      = elements usernames /\
      length (collect_all_user_stats api usernames) = size usernames /\
      forall username,
        username ∈ usernames ->
        collect_user_stats api username ∈ collect_all_user_stats api usernames).
Proof.
  split; [exact (collect_user_stats_failure api)|].
  split; [exact (collect_user_stats_record api)|].
  intros usernames. split; [apply collect_all_usernames|]. split.
  - unfold collect_all_user_stats. by rewrite length_map.
  - intros username Hin. unfold collect_all_user_stats.
    apply list_elem_of_fmap. exists username. by rewrite elem_of_elements.
Qed.

Lemma collector_degrades_witness :
  collect_user_stats u1_missing_api "u1" = ("u1", JInt 0, JInt 0) /\
  collect_user_stats u1_missing_api "u2" ∈
    collect_all_user_stats u1_missing_api {[ "u1"; "u2" ]}.
Proof.
  split.
  - apply (proj1 (collector_degrades string u1_missing_api) "u1").
    apply status_not_ok.
  - apply (proj2 (proj2 (proj2 (proj2 (collector_degrades string u1_missing_api))
                           {[ "u1"; "u2" ]})) "u2").
    apply elem_of_union_r, elem_of_singleton. reflexivity.
Defined.

(** C5 as stated fails for a body that lacks one field only: with the total
    of likes missing and an article count of 7 the stat is (u1, 0, 7). *)
Lemma collector_field_missing :
  collect_user_stats likes_missing_api "u1" = ("u1", JInt 0, JInt 7) /\
  collect_user_stats likes_missing_api "u1" <> ("u1", JInt 0, JInt 0).
Proof. split; [reflexivity|discriminate]. Qed.

(** ** RankingGenerator: export and display *)

Lemma py_max_spec a b : Py.max a b = Z.max a b.
Proof. unfold Py.max. destruct (Z.ltb_spec a b); lia. Qed.

Lemma truediv_denominator total_likes article_count :
  Py.truediv total_likes (avg_denominator article_count)
  = if Py.float_overflows total_likes (avg_denominator article_count)
    then Error OverflowError
    else Ok (TrueDiv total_likes (avg_denominator article_count)).
Proof.
  unfold Py.truediv.
  destruct (Z.eqb_spec (avg_denominator article_count) 0) as [Hz|]; [|done].
  unfold avg_denominator in Hz. rewrite py_max_spec in Hz. lia.
Qed.

Lemma avg_likes_cases total_likes article_count :
  avg_likes total_likes article_count
  = if Py.float_overflows total_likes (avg_denominator article_count)
    then Error OverflowError
    else Ok (Round (TrueDiv total_likes (avg_denominator article_count)) 1).
Proof.
  unfold avg_likes. rewrite truediv_denominator.
  by destruct (Py.float_overflows _ _).
Qed.

Lemma printed_lines_after_line l p :
  printed_lines (after_line l p) = l :: printed_lines p.
Proof. by destruct p. Qed.

Lemma slice_to_subseteq {A} (l : list A) (n : Z) : Py.slice_to l n ⊆ l.
Proof. unfold Py.slice_to. destruct (n <? 0); apply subseteq_take. Qed.

Section DisplayFacts.

Context {U : Type} `{PyFormatS U}.

Lemma ranking_rows_lines (entries : list (ranked_entry U)) line :
  line ∈ printed_lines (ranking_rows entries) ->
  exists e name,
    e ∈ entries /\ py_format_s e.1.1.2 = Ok name /\ line = display_row name e.
Proof.
  induction entries as [|[[[rank username] total_likes] article_count] rest IH];
    cbn [ranking_rows].
  - by intros Hl%elem_of_nil.
  - rewrite avg_likes_cases.
    destruct (Py.float_overflows _ _); [by intros Hl%elem_of_nil|].
    destruct (py_format_s username) as [name|e] eqn:En; [|by intros Hl%elem_of_nil].
    rewrite printed_lines_after_line. intros [->|Hl]%elem_of_cons.
    + exists (rank, username, total_likes, article_count), name.
      split; [apply list_elem_of_here|]. split; [done|].
      unfold display_row, avg_denominator. by rewrite py_max_spec.
    + destruct (IH Hl) as (e & name' & He & Hn & ->).
      exists e, name'. split; [by apply list_elem_of_further|done].
Qed.

Lemma ranking_rows_no_zero_division (entries : list (ranked_entry U)) lines :
  (forall u, py_format_s u <> Error ZeroDivisionError) ->
  ranking_rows entries <> PrintRaised ZeroDivisionError lines.
Proof.
  intros Hfmt. revert lines.
  induction entries as [|[[[rank username] total_likes] article_count] rest IH];
    intros lines; cbn [ranking_rows]; [done|].
  rewrite avg_likes_cases.
  destruct (Py.float_overflows _ _); [done|].
  destruct (py_format_s username) as [name|e] eqn:En.
  - destruct (ranking_rows rest) as [ls|e ls] eqn:Er; [done|].
    cbn [after_line]. intros [= -> _]. by eapply IH.
  - intros [= -> _]. by apply (Hfmt username).
Qed.

Lemma print_top_ranking_no_zero_division (ranking : list (ranked_entry U)) top_n lines :
  (forall u, py_format_s u <> Error ZeroDivisionError) ->
  print_top_ranking ranking top_n <> PrintRaised ZeroDivisionError lines.
Proof.
  intros Hfmt. unfold print_top_ranking.
  destruct (ranking_rows (Py.slice_to ranking top_n)) as [ls|e ls] eqn:Er; [done|].
  cbn [after_line]. intros [= -> _].
  by eapply ranking_rows_no_zero_division.
Qed.

Lemma print_top_ranking_lines (ranking : list (ranked_entry U)) top_n line :
  line ∈ printed_lines (print_top_ranking ranking top_n) ->
  line ∈ [RankingTitle top_n; RankingColumns; RankingRule] \/
  exists e name,
    e ∈ ranking /\ py_format_s e.1.1.2 = Ok name /\ line = display_row name e.
Proof.
  unfold print_top_ranking. rewrite !printed_lines_after_line.
  intros [->|[->|[->|Hl]%elem_of_cons]%elem_of_cons]%elem_of_cons.
  - left. apply list_elem_of_here.
  - left. apply list_elem_of_further, list_elem_of_here.
  - left. do 2 apply list_elem_of_further. apply list_elem_of_here.
  - right. destruct (ranking_rows_lines _ _ Hl) as (e & name & He & Hn & ->).
    exists e, name. split; [by apply (slice_to_subseteq ranking top_n)|done].
Qed.

End DisplayFacts.

(** C7, as the code has it: the export writes the header row 順位,
    ユーザー名, 総いいね数, 記事数, ユーザーページ (rank, username, total
    likes, article count, user page), then one row per entry in the order
    of the ranking, whose last field is the username appended to
    https://zenn.dev/; for a generated ranking the first field of row i is
    the rank i. *)
Theorem export_to_csv_rows (U : Type) `{PyStr U} (ranking : list (ranked_entry U)) :
  export_to_csv ranking !! 0%nat
  = Some ["順位"; "ユーザー名"; "総いいね数"; "記事数"; "ユーザーページ"] /\
  length (export_to_csv ranking) = S (length ranking) /\
  (forall i rank username total_likes article_count,
      ranking !! i = Some (rank, username, total_likes, article_count) ->
      export_to_csv ranking !! S i
      = Some [py_str rank; py_str username; py_str total_likes;
              py_str article_count; "https://zenn.dev/" +:+ py_str username]) /\
  (forall stats top_n i e,
      ranking = generate_top_ranking stats top_n ->
      ranking !! i = Some e ->
      entry_rank e = Z.of_nat (S i)).
Proof.
  split; [done|]. split; [by unfold export_to_csv; cbn; rewrite length_map|].
  split.
  - intros i rank username total_likes article_count Hi.
    change (export_to_csv ranking !! S i) with (map csv_row ranking !! i).
    rewrite list_lookup_fmap. unfold ranked_entry in *. by rewrite Hi.
  - intros stats top_n i e -> Hi.
    assert (map entry_rank (generate_top_ranking stats top_n) !! i
            = Some (entry_rank e)) as Hr by (by rewrite list_lookup_fmap, Hi).
    rewrite ranking_ranks in Hr. apply lookup_seqZ in Hr. lia.
Qed.

Lemma export_to_csv_rows_witness :
  export_to_csv [(1, "z", 100, 1); (2, "y", 50, 10)] !! 2%nat
  = Some ["2"; "y"; "50"; "10"; "https://zenn.dev/y"].
Proof.
  rewrite (proj1 (proj2 (proj2 (export_to_csv_rows string
                                  [(1, "z", 100, 1); (2, "y", 50, 10)])))
             1%nat 2 "y" 50 10 eq_refl).
  vm_compute. reflexivity.
Defined.

(** C7 as stated fails on the names of the header fields: they are not
    rank, username, total_liked_count, article_count, profile_url. *)
Lemma export_to_csv_header_names :
  export_to_csv (U := string) [] !! 0%nat
  <> Some ["rank"; "username"; "total_liked_count"; "article_count"; "profile_url"].
Proof. discriminate. Qed.

(** C9: the displayed average divides by [max(article_count, 1)], which is
    1 for an article count of 0 and never 0, so the division never raises
    ZeroDivisionError, alone or in the display of a ranking, and gives the
    rounded quotient by that denominator whenever the quotient is in the
    range of floats; every row the display prints shows the stored total of
    likes and the stored article count of an entry of the ranking, not the
    substituted denominator. *)
Theorem display_average_safe (total_likes article_count : Z) :
  avg_denominator article_count = Z.max article_count 1 /\
  avg_denominator 0 = 1 /\
  avg_denominator article_count <> 0 /\
  Py.truediv total_likes (avg_denominator article_count) <> Error ZeroDivisionError /\
  (Py.float_overflows total_likes (avg_denominator article_count) = false ->
   avg_likes total_likes article_count
   = Ok (Round (TrueDiv total_likes (avg_denominator article_count)) 1)) /\
  (forall (ranking : list (ranked_entry string)) top_n lines,
      print_top_ranking ranking top_n <> PrintRaised ZeroDivisionError lines) /\
  (forall (ranking : list (ranked_entry pykey)) top_n lines,
      print_top_ranking ranking top_n <> PrintRaised ZeroDivisionError lines) /\
  (forall (ranking : list (ranked_entry string)) top_n line,
      line ∈ printed_lines (print_top_ranking ranking top_n) ->
      line ∈ [RankingTitle top_n; RankingColumns; RankingRule] \/
      exists e, e ∈ ranking /\ line = display_row e.1.1.2 e).
Proof.
  assert (avg_denominator article_count = Z.max article_count 1) as Hd
    by apply py_max_spec.
  split; [done|]. split; [done|]. split; [lia|]. split; [|split; [|split; [|split]]].
  - rewrite truediv_denominator. by destruct (Py.float_overflows _ _).
  - intros Ho. by rewrite avg_likes_cases, Ho.
  - intros ranking top_n lines.
    by apply print_top_ranking_no_zero_division.
  - intros ranking top_n lines.
    apply print_top_ranking_no_zero_division. by intros [| |].
  - intros ranking top_n line Hl.
    destruct (print_top_ranking_lines _ _ _ Hl) as [|(e & name & He & Hn & ->)];
      [by left|].
    right. exists e. split; [done|]. by injection Hn as <-.
Qed.

Lemma display_average_safe_witness :
  avg_likes 50 0 = Ok (Round (TrueDiv 50 (avg_denominator 0)) 1) /\
  (display_row "y" (2, "y", 50, 0)
     ∈ [RankingTitle 30; RankingColumns; RankingRule] \/
   exists e, e ∈ display_ranking /\
             display_row "y" (2, "y", 50, 0) = display_row e.1.1.2 e).
Proof.
  split.
  - apply (proj1 (proj2 (proj2 (proj2 (proj2 (display_average_safe 50 0)))))).
    vm_compute. reflexivity.
  - apply (proj2 (proj2 (proj2 (proj2 (proj2 (proj2 (proj2
             (display_average_safe 50 0)))))))
             display_ranking 30 (display_row "y" (2, "y", 50, 0))).
    vm_compute. do 4 apply list_elem_of_further. apply list_elem_of_here.
Defined.

(** ** ZennRankingOrchestrator *)

(** C8, as the code has it: on empty input each stage gives an empty
    result without an error: the collector returns no stats for the empty
    set, the generator an empty ranking for no stats, and the export of an
    empty ranking writes the header row only.  The pipeline, however, does
    not go through these stages when discovery returns the empty set: it
    prints its no-users error line and returns at once, without an
    exception, writing no file and printing no summary. *)
Theorem empty_discovery_ends_pipeline :
  (forall api : pykey -> response, collect_all_user_stats api ∅ = []) /\
  (forall top_n, generate_top_ranking (U := pykey) [] top_n = []) /\
  export_to_csv (U := pykey) [] = [csv_header] /\
  (forall feed api discovery_pages top_ranking fuel d,
      discover_users_from_popular_articles feed discovery_pages fuel = Some d ->
      raised d = false ->
      discovered_users d = ∅ ->
      execute_ranking_pipeline feed api discovery_pages top_ranking fuel
      = Some {| console := [PipelineStart; NoUsersError]; files := [];
                how := Returned |}).
Proof.
  split; [|split; [|split]].
  - intros api. unfold collect_all_user_stats. by rewrite elements_empty.
  - intros top_n. unfold generate_top_ranking, Py.slice_to. cbn.
    by destruct (top_n <? 0); rewrite take_nil.
  - reflexivity.
  - intros feed api discovery_pages top_ranking fuel d Hd Hr He.
    unfold execute_ranking_pipeline. rewrite Hd, Hr.
    by destruct (decide (discovered_users d = ∅)).
Qed.

Lemma empty_discovery_ends_pipeline_witness :
  execute_ranking_pipeline empty_feed unreachable_api 50 100 1
  = Some {| console := [PipelineStart; NoUsersError]; files := [];
            how := Returned |}.
Proof.
  apply (proj2 (proj2 (proj2 empty_discovery_ends_pipeline))
           empty_feed unreachable_api 50 100 1%nat
           {| discovered_users := ∅; fetched := [1]; raised := false |});
    reflexivity.
Defined.

(** C8 as stated fails for the pipeline: when the first page of the feed
    has no articles, the run writes no CSV file, header-only or other, and
    reports no ranking size. *)
Lemma empty_discovery_writes_nothing :
  let run := execute_ranking_pipeline empty_feed unreachable_api 50 100 1 in
  files <$> run = Some [] /\
  files <$> run <> Some [(output_file, [csv_header])] /\
  console <$> run = Some [PipelineStart; NoUsersError] /\
  ~ (exists r, run = Some r /\ RankingSize 0 ∈ console r).
Proof.
  assert (execute_ranking_pipeline empty_feed unreachable_api 50 100 1
          = Some {| console := [PipelineStart; NoUsersError]; files := [];
                    how := Returned |}) as -> by reflexivity.
  cbn. split; [done|]. split; [done|]. split; [done|].
  intros (r & [= <-] & Hin). cbn in Hin.
  apply elem_of_cons in Hin as [|Hin]; [done|].
  apply elem_of_cons in Hin as [|Hin]; [done|].
  by apply elem_of_nil in Hin.
Qed.

(** * Further properties of the ranking script *)

(** ** RankingGenerator.generate_top_ranking *)

#[local] Instance key_ge_transitive {A} (key : A -> Z * Z) : Transitive (key_ge key).
Proof. intros x y z. apply lex_ge_trans. Qed.

Lemma slice_to_take {A} (l : list A) (n : Z) :
  exists k, Py.slice_to l n = take k l.
Proof. unfold Py.slice_to. destruct (n <? 0); eauto. Qed.

Lemma slice_to_all {A} (l : list A) (n : Z) :
  Z.of_nat (length l) <= n -> Py.slice_to l n = l.
Proof.
  intros Hn. unfold Py.slice_to.
  destruct (Z.ltb_spec n 0); [lia|]. apply take_ge. lia.
Qed.

Lemma slice_to_slice_to {A} (l : list A) (n : Z) :
  0 <= n -> Py.slice_to (Py.slice_to l n) n = Py.slice_to l n.
Proof.
  intros Hn. unfold Py.slice_to.
  destruct (Z.ltb_spec n 0); [lia|]. apply take_ge. rewrite length_take. lia.
Qed.

Lemma insert_desc_head {A} (key : A -> Z * Z) x l :
  HdRel (key_ge key) x l -> Py.insert_desc key x l = x :: l.
Proof.
  destruct 1 as [|y r Hxy]; [done|]. simpl.
  destruct (Py.tuple_lt (key x) (key y)) eqn:E; [|done].
  exfalso. revert Hxy E. unfold key_ge, lex_ge, Py.tuple_lt.
  destruct (key x), (key y); simpl. lia.
Qed.

Lemma sorted_reverse_of_sorted {A} (key : A -> Z * Z) l :
  Sorted (key_ge key) l -> Py.sorted_reverse key l = l.
Proof.
  induction 1 as [|x r Hs IH Hhd]; [done|].
  simpl. rewrite IH. by apply insert_desc_head.
Qed.

Lemma filter_take_prefix {A} (P : A -> Prop) `{!forall x, Decision (P x)} k (l : list A) :
  filter P (take k l) `prefix_of` filter P l.
Proof.
  exists (filter P (drop k l)). by rewrite <- filter_app, take_drop.
Qed.

(** X1: ties keep their input order.  Among the stats with one pair
    (likes, articles), the ranked ones are the first of them in the order
    of the input, in that order. *)
Theorem generate_top_ranking_stable (U : Type) (stats : list (user_stat U))
    (top_n : Z) (k : Z * Z) :
  filter (fun s => stat_key s = k) (map entry_stat (generate_top_ranking stats top_n))
  `prefix_of` filter (fun s => stat_key s = k) stats.
Proof.
  rewrite ranking_stats.
  destruct (slice_to_take (Py.sorted_reverse stat_key stats) top_n) as [n ->].
  rewrite <- (sorted_reverse_stable stat_key k stats).
  apply filter_take_prefix.
Qed.

(** X2: the ranked entries are the top ones.  The stats split into the
    ranked ones and the rest, and every ranked entry has a pair
    (likes, articles) at least as large as that of every stat left out. *)
Theorem generate_top_ranking_dominates (U : Type) (stats : list (user_stat U))
    (top_n : Z) :
  exists rest,
    map entry_stat (generate_top_ranking stats top_n) ++ rest ≡ₚ stats /\
    forall e s,
      e ∈ generate_top_ranking stats top_n -> s ∈ rest ->
      lex_ge (entry_key e) (stat_key s).
Proof.
  rewrite ranking_stats.
  destruct (slice_to_take (Py.sorted_reverse stat_key stats) top_n) as [n Hn].
  exists (drop n (Py.sorted_reverse stat_key stats)). split.
  - rewrite Hn, take_drop. apply sorted_reverse_perm.
  - intros e s He Hs. rewrite entry_key_stat.
    assert (StronglySorted (key_ge stat_key) (Py.sorted_reverse stat_key stats))
      as Hss by (apply Sorted_StronglySorted; [apply _|apply sorted_reverse_sorted]).
    rewrite <- (take_drop n (Py.sorted_reverse stat_key stats)) in Hss.
    apply (StronglySorted_app_1_elem_of _ _ _ (entry_stat e) s Hss); [|done].
    rewrite <- Hn, <- ranking_stats. apply list_elem_of_fmap. by exists e.
Qed.

Lemma generate_top_ranking_dominates_witness :
  exists rest,
    map entry_stat
      (generate_top_ranking [("x", 50, 5); ("y", 50, 10); ("z", 100, 1)] 2)
    ++ rest ≡ₚ [("x", 50, 5); ("y", 50, 10); ("z", 100, 1)] /\
    forall e s,
      e ∈ generate_top_ranking [("x", 50, 5); ("y", 50, 10); ("z", 100, 1)] 2 ->
      s ∈ rest -> lex_ge (entry_key e) (stat_key s).
Proof.
  exact (generate_top_ranking_dominates string
           [("x", 50, 5); ("y", 50, 10); ("z", 100, 1)] 2).
Defined.

(** X3: a bound of at least [len(stats)] ranks everybody: the ranked stats
    are a permutation of the input. *)
Theorem generate_top_ranking_all (U : Type) (stats : list (user_stat U)) (top_n : Z) :
  Z.of_nat (length stats) <= top_n ->
  map entry_stat (generate_top_ranking stats top_n) ≡ₚ stats.
Proof.
  intros Hn. rewrite ranking_stats, slice_to_all; [apply sorted_reverse_perm|].
  by rewrite (Permutation_length (sorted_reverse_perm stat_key stats)).
Qed.

Lemma generate_top_ranking_all_witness :
  map entry_stat (generate_top_ranking [("x", 50, 5); ("y", 50, 10)] 100)
  ≡ₚ [("x", 50, 5); ("y", 50, 10)].
Proof.
  apply (generate_top_ranking_all string [("x", 50, 5); ("y", 50, 10)] 100).
  vm_compute. discriminate.
Defined.

(** X4: ranking a ranking changes nothing.  For [top_n >= 0], the stats of
    a ranking, ranked again with the same bound, give the same ranking. *)
Theorem generate_top_ranking_idempotent (U : Type) (stats : list (user_stat U))
    (top_n : Z) :
  0 <= top_n ->
  generate_top_ranking (map entry_stat (generate_top_ranking stats top_n)) top_n
  = generate_top_ranking stats top_n.
Proof.
  intros Hn. rewrite ranking_stats.
  rewrite (generate_top_ranking_eq (Py.slice_to _ _)), (generate_top_ranking_eq stats).
  rewrite sorted_reverse_of_sorted
    by apply slice_to_sorted, sorted_reverse_sorted.
  by rewrite slice_to_slice_to.
Qed.

Lemma generate_top_ranking_idempotent_witness :
  generate_top_ranking
    (map entry_stat
       (generate_top_ranking [("x", 50, 5); ("y", 50, 10); ("z", 100, 1)] 2)) 2
  = generate_top_ranking [("x", 50, 5); ("y", 50, 10); ("z", 100, 1)] 2.
Proof.
  apply (generate_top_ranking_idempotent string
           [("x", 50, 5); ("y", 50, 10); ("z", 100, 1)] 2).
  vm_compute. discriminate.
Defined.

(** ** ZennUserDiscovery.discover_users_from_popular_articles *)

Lemma add_usernames_cons article rest users :
  (article_key article = None /\
   (add_usernames (article :: rest) users = add_usernames rest users \/
    add_usernames (article :: rest) users = Caught users)) \/
  (exists k, article_key article = Some k /\
             add_usernames (article :: rest) users
             = add_usernames rest ({[ k ]} ∪ users)).
Proof.
  cbn [add_usernames]. unfold article_key.
  destruct (PyJson.get article "user" (JObj [])) as [user|];
    cbn [mbind option_bind]; [|by left; split; [|right]].
  destruct (PyJson.get user "username" JNull) as [[|z|s|l|f]|];
    cbn [PyJson.truthy PyJson.set_add negb].
  - by left; split; [|left].
  - destruct (z =? 0); cbn [negb]; [by left; split; [|left]|right; by eexists].
  - destruct (String.eqb s ""); cbn [negb]; [by left; split; [|left]|right; by eexists].
  - left. split; [done|]. destruct l; [by left|by right].
  - left. split; [done|]. destruct f; [by left|by right].
  - by left; split; [|right].
Qed.

Lemma add_usernames_keys articles users :
  match add_usernames articles users with
  | Done users' => users' = users ∪ list_to_set (omap article_key articles)
  | Caught users' => users' ⊆ users ∪ list_to_set (omap article_key articles)
  end.
Proof.
  revert users. induction articles as [|a rest IH]; intros users.
  - simpl. apply set_eq. intros x. rewrite elem_of_union, elem_of_empty. tauto.
  - destruct (add_usernames_cons a rest users) as [[Hk [->| ->]]|(k & Hk & ->)];
      cbn [omap list_omap]; rewrite Hk.
    + apply IH.
    + apply union_subseteq_l.
    + specialize (IH ({[k]} ∪ users)). cbn [list_to_set].
      destruct (add_usernames rest ({[k]} ∪ users)) as [u|u].
      * rewrite IH. apply set_eq. intros x. rewrite !elem_of_union. tauto.
      * intros x Hx. apply IH in Hx. revert Hx. rewrite !elem_of_union. tauto.
Qed.

Lemma article_key_truthy article k :
  article_key article = Some k -> k <> KNone /\ k <> KInt 0 /\ k <> KStr "".
Proof.
  unfold article_key.
  destruct (_ ≫= _) as [[|z|s|l|f]|]; try done.
  - destruct (Z.eqb_spec z 0); [done|]. intros [= <-]. repeat split; congruence.
  - destruct (String.eqb_spec s ""); [done|]. intros [= <-]. repeat split; congruence.
Qed.

Lemma process_page_keys feed page users :
  match process_page feed page users with
  | Break users' | NextPage users' _ =>
      users' ⊆ users ∪ list_to_set (omap article_key (page_items feed page))
  end.
Proof.
  unfold process_page, page_items.
  destruct (feed page) as [|[] st [data|]]; cbn [negb]; try apply union_subseteq_l.
  destruct (PyJson.get data "articles" (JArr [])) as [articles|];
    cbn [mbind option_bind default]; [|apply union_subseteq_l].
  destruct (PyJson.truthy articles); cbn [negb]; [|apply union_subseteq_l].
  destruct (PyJson.iter articles) as [items|]; cbn [default]; [|apply union_subseteq_l].
  pose proof (add_usernames_keys items users) as Hk.
  destruct (add_usernames items users) as [u|u]; [|done].
  assert (u ⊆ users ∪ list_to_set (omap article_key items)) as Hu by (by rewrite Hk).
  destruct (PyJson.get data "next_page" JNull) as [[]|]; done.
Qed.

Section DiscoveryLoopFacts.

Variable feed : Z -> response.
Variable max_pages : Z.

(** What the loop keeps from its state: the requests made so far, and an
    invariant of the pair (set, requests) that each page preserves. *)
Lemma discover_loop_invariant (I : gset pykey -> list Z -> Prop) :
  (forall page users requests,
      page <= max_pages -> I users requests ->
      match process_page feed page users with
      | Break users' | NextPage users' _ => I users' (requests ++ [page])
      end) ->
  forall fuel page users requests d,
    I users requests ->
    discover_loop feed max_pages fuel page users requests = Some d ->
    I (discovered_users d) (fetched d).
Proof.
  intros Hstep. induction fuel as [|fuel IH]; intros page users requests d HI; [done|].
  cbn [discover_loop]. destruct page as [|p| | |]; try (by intros [= <-]).
  destruct (Z.leb_spec p max_pages) as [Hle|]; [|by intros [= <-]].
  specialize (Hstep p users requests Hle HI).
  destruct (process_page feed p users) as [u|u np]; [by intros [= <-]|].
  by apply IH.
Qed.

End DiscoveryLoopFacts.

Section DiscoveryProgressFacts.

Variable feed : Z -> response.
Variable max_pages : Z.

Lemma discover_loop_progress fuel page users requests d :
  discover_loop feed max_pages fuel page users requests = Some d ->
  discover_progress feed max_pages fuel page users requests = d.
Proof.
  revert page users requests. induction fuel as [|fuel IH];
    intros page users requests; [done|].
  cbn [discover_loop discover_progress].
  destruct page as [|p| | |]; try (by intros [= <-]).
  destruct (p <=? max_pages); [|by intros [= <-]].
  destruct (process_page feed p users) as [u|u np]; [by intros [= <-]|apply IH].
Qed.

Lemma discover_progress_bounded fuel page users requests :
  Forall (fun p => p <= max_pages) requests ->
  Forall (fun p => p <= max_pages)
         (fetched (discover_progress feed max_pages fuel page users requests)).
Proof.
  revert page users requests. induction fuel as [|fuel IH];
    intros page users requests Hall; [done|].
  cbn [discover_progress]. destruct page as [|p| | |]; try done.
  destruct (Z.leb_spec p max_pages) as [Hle|]; [|done].
  assert (Forall (fun p => p <= max_pages) (requests ++ [p]))
    by (apply Forall_app; split; [done|by repeat constructor]).
  destruct (process_page feed p users) as [u|u np]; [done|by apply IH].
Qed.

Lemma discover_progress_integer_cursors fuel page users requests :
  integer_cursors feed ->
  raised (discover_progress feed max_pages fuel (JInt page) users requests) = false.
Proof.
  intros Hint. revert page users requests.
  induction fuel as [|fuel IH]; intros page users requests; [done|].
  cbn [discover_progress].
  destruct (page <=? max_pages); [|done].
  destruct (process_page feed page users) as [u|u np] eqn:E; [done|].
  apply process_page_next in E as (st & data & Hf & Hnp & Hne).
  destruct (Hint _ _ _ _ Hf Hnp) as [|(p & ->)]; [done|]. apply IH.
Qed.

End DiscoveryProgressFacts.

(** X5: discovery never requests a page numbered beyond [max_pages],
    whatever cursors the feed returns and whether or not the loop ever
    ends: at every point of a run the pages requested so far are at most
    [max_pages], and a run that returns has requested exactly the pages of
    its last state.  With [max_pages < 1] it makes no request and returns
    the empty set. *)
Theorem discovery_pages_bounded (feed : Z -> response) (max_pages : Z) (fuel : nat) :
  Forall (fun page => page <= max_pages)
         (fetched (discover_progress feed max_pages fuel (JInt 1) ∅ [])) /\
  (forall d,
      discover_users_from_popular_articles feed max_pages fuel = Some d ->
      discover_progress feed max_pages fuel (JInt 1) ∅ [] = d /\
      Forall (fun page => page <= max_pages) (fetched d)) /\
  (max_pages < 1 ->
   discover_users_from_popular_articles feed max_pages (S fuel)
   = Some {| discovered_users := ∅; fetched := []; raised := false |}).
Proof.
  split; [by apply discover_progress_bounded|]. split.
  - intros d Hd. apply discover_loop_progress in Hd as Hp. split; [done|].
    rewrite <- Hp. by apply discover_progress_bounded.
  - intros Hlt. unfold discover_users_from_popular_articles. cbn [discover_loop].
    by destruct (Z.leb_spec 1 max_pages); [lia|].
Qed.

Lemma discovery_pages_bounded_witness :
  Forall (fun page => page <= 1)
         (fetched (discover_progress looping_feed 1 7 (JInt 1) ∅ [])) /\
  (discover_progress scenario_feed 50 3 (JInt 1) ∅ [] = scenario_discovery /\
   Forall (fun page => page <= 50) (fetched scenario_discovery)) /\
  discover_users_from_popular_articles scenario_feed 0 1
  = Some {| discovered_users := ∅; fetched := []; raised := false |}.
Proof.
  split; [|split].
  - apply (proj1 (discovery_pages_bounded looping_feed 1 7)).
  - apply (proj1 (proj2 (discovery_pages_bounded scenario_feed 50 3))
             scenario_discovery).
    vm_compute. reflexivity.
  - apply (proj2 (proj2 (discovery_pages_bounded scenario_feed 0 0))). lia.
Defined.

(** X6: every discovered user comes from the feed: each member of the set
    is the truthy username of an article on one of the requested pages; so
    the set never holds None, 0 or the empty string. *)
Theorem discovery_sound (feed : Z -> response) (max_pages : Z) (fuel : nat)
    (d : discovery) (k : pykey) :
  discover_users_from_popular_articles feed max_pages fuel = Some d ->
  k ∈ discovered_users d ->
  (exists page article,
      page ∈ fetched d /\ article ∈ page_items feed page /\
      article_key article = Some k) /\
  k <> KNone /\ k <> KInt 0 /\ k <> KStr "".
Proof.
  intros Hd Hk.
  assert (exists page article,
             page ∈ fetched d /\ article ∈ page_items feed page /\
             article_key article = Some k) as Hex.
  { refine (discover_loop_invariant feed max_pages
              (fun users requests =>
                 forall k, k ∈ users ->
                   exists page article,
                     page ∈ requests /\ article ∈ page_items feed page /\
                     article_key article = Some k) _ fuel (JInt 1) ∅ [] d _ Hd k Hk).
    - intros page users requests _ HI.
      pose proof (process_page_keys feed page users) as Hkeys.
      assert (forall users',
                 users' ⊆ users ∪ list_to_set (omap article_key (page_items feed page)) ->
                 forall k, k ∈ users' ->
                   exists page' article,
                     page' ∈ requests ++ [page] /\ article ∈ page_items feed page' /\
                     article_key article = Some k) as Hgen.
      { intros users' Hsub k' Hk'. apply Hsub, elem_of_union in Hk' as [Hk'|Hk'].
        - destruct (HI k' Hk') as (p & a & Hp & Ha & Hak).
          exists p, a. split; [|done]. apply elem_of_app. by left.
        - apply elem_of_list_to_set, list_elem_of_omap in Hk' as (a & Ha & Hak).
          exists page, a. split; [|done]. apply elem_of_app. right.
          by apply list_elem_of_singleton. }
      destruct (process_page feed page users); by apply Hgen.
    - intros k' Hk'. by apply elem_of_empty in Hk'. }
  split; [done|]. destruct Hex as (p & a & _ & _ & Hak).
  by apply article_key_truthy in Hak.
Qed.

Lemma discovery_sound_witness :
  (exists page article,
      page ∈ fetched scenario_discovery /\ article ∈ page_items scenario_feed page /\
      article_key article = Some (KStr "c")) /\
  KStr "c" <> KNone /\ KStr "c" <> KInt 0 /\ KStr "c" <> KStr "".
Proof.
  apply (discovery_sound scenario_feed 50 3 scenario_discovery (KStr "c")).
  - vm_compute. reflexivity.
  - apply elem_of_union_r, elem_of_singleton. reflexivity.
Defined.

Lemma process_page_next_keys feed page users users' next_page :
  process_page feed page users = NextPage users' next_page ->
  users' = users ∪ list_to_set (omap article_key (page_items feed page)).
Proof.
  unfold process_page, page_items.
  destruct (feed page) as [|[] st [data|]]; cbn [negb]; try done.
  destruct (PyJson.get data "articles" (JArr [])) as [articles|];
    cbn [mbind option_bind default]; [|done].
  destruct (PyJson.truthy articles); cbn [negb]; [|done].
  destruct (PyJson.iter articles) as [items|]; cbn [default]; [|done].
  pose proof (add_usernames_keys items users) as Hk.
  destruct (add_usernames items users) as [u|u]; [|done].
  destruct (PyJson.get data "next_page" JNull) as [[]|]; try done;
    by intros [= <- _].
Qed.

Section DiscoveryCursorFacts.

Variable feed : Z -> response.
Variable max_pages : Z.

Lemma discover_loop_integer_cursors fuel page users requests d :
  integer_cursors feed ->
  discover_loop feed max_pages fuel (JInt page) users requests = Some d ->
  raised d = false.
Proof.
  intros Hint. revert page users requests.
  induction fuel as [|fuel IH]; intros page users requests; [done|].
  cbn [discover_loop].
  destruct (page <=? max_pages); [|by intros [= <-]].
  destruct (process_page feed page users) as [u|u np] eqn:E; [by intros [= <-]|].
  apply process_page_next in E as (st & data & Hf & Hnp & Hne).
  destruct (Hint _ _ _ _ Hf Hnp) as [|(p & ->)]; [done|]. apply IH.
Qed.

Lemma discover_loop_increasing fuel page users requests d :
  advancing feed ->
  StronglySorted Z.lt requests ->
  Forall (fun p => p < page) requests ->
  discover_loop feed max_pages fuel (JInt page) users requests = Some d ->
  StronglySorted Z.lt (fetched d).
Proof.
  intros Hadv. revert page users requests.
  induction fuel as [|fuel IH]; intros page users requests Hs Hlt; [done|].
  cbn [discover_loop].
  assert (StronglySorted Z.lt (requests ++ [page])) as Hs'.
  { apply StronglySorted_app_2; [|done|repeat constructor].
    intros x1 x2 Hx1 ->%list_elem_of_singleton.
    by apply (proj1 (Forall_forall _ _) Hlt). }
  destruct (page <=? max_pages); [|by intros [= <-]].
  destruct (process_page feed page users) as [u|u np] eqn:E; [by intros [= <-]|].
  apply process_page_next in E as (st & data & Hf & Hnp & Hne).
  destruct (Hadv _ _ _ _ Hf Hnp) as [|(p & -> & Hp)]; [done|].
  apply IH; [done|]. apply Forall_app. split; [|repeat constructor; done].
  eapply Forall_impl; [exact Hlt|]. intros x Hx. simpl in Hx. lia.
Qed.

Lemma discover_loop_complete fuel page users requests d :
  (forall p, p ∈ requests ->
     list_to_set (omap article_key (page_items feed p)) ⊆ users) ->
  discover_loop feed max_pages fuel page users requests = Some d ->
  (fetched d = requests /\ discovered_users d = users) \/
  (exists mid last,
      fetched d = requests ++ mid ++ [last] /\
      forall p, p ∈ requests ++ mid ->
        list_to_set (omap article_key (page_items feed p)) ⊆ discovered_users d).
Proof.
  revert page users requests.
  induction fuel as [|fuel IH]; intros page users requests Hinv; [done|].
  cbn [discover_loop]. destruct page as [|p| | |]; try (by intros [= <-]; left).
  destruct (p <=? max_pages); [|by intros [= <-]; left].
  pose proof (process_page_grows feed p users) as Hg.
  destruct (process_page feed p users) as [u|u np] eqn:E.
  - intros [= <-]. right. exists [], p. split; [done|]. cbn.
    intros p' Hp'. rewrite app_nil_r in Hp'. by etransitivity; [apply Hinv|].
  - apply process_page_next_keys in E as Hu. intros Hd.
    apply IH in Hd as [[Hf Hus]|(mid & last & Hf & Hall)].
    + right. exists [], p. split; [done|]. cbn. rewrite Hus.
      intros p' Hp'. rewrite app_nil_r in Hp'. by etransitivity; [apply Hinv|].
    + right. exists (p :: mid), last. split; [by rewrite Hf, <- app_assoc|].
      intros p' Hp'. apply Hall. by rewrite <- app_assoc.
    + intros p' [Hp'| ->%list_elem_of_singleton]%elem_of_app.
      * by etransitivity; [apply Hinv|].
      * rewrite Hu. apply union_subseteq_r.
Qed.

End DiscoveryCursorFacts.

(** X7: on a feed whose cursors are null, absent or integers no exception
    leaves discovery: at no point of a run, whether or not the loop ever
    ends, has the method raised, and a run that ends returns its set.  (The
    run need not end: a cursor that does not advance keeps the loop
    going.) *)
Theorem discovery_no_exception (feed : Z -> response) (max_pages : Z) (fuel : nat) :
  integer_cursors feed ->
  raised (discover_progress feed max_pages fuel (JInt 1) ∅ []) = false /\
  (forall d,
      discover_users_from_popular_articles feed max_pages fuel = Some d ->
      raised d = false).
Proof.
  intros Hint. split; [by apply discover_progress_integer_cursors|].
  intros d Hd. by eapply discover_loop_integer_cursors.
Qed.

Lemma scenario_feed_integer_cursors : integer_cursors scenario_feed.
Proof.
  intros page st data np Hf Hnp.
  destruct (scenario_feed_advancing page st data np Hf Hnp) as [|(p & Hp & _)];
    [by left|right; by exists p].
Qed.

Lemma looping_feed_integer_cursors : integer_cursors looping_feed.
Proof.
  intros page st data np [= <- <-]. cbn. intros [= <-]. right. by exists 1.
Qed.

Lemma discovery_no_exception_witness :
  raised (discover_progress looping_feed 1 100 (JInt 1) ∅ []) = false /\
  raised scenario_discovery = false.
Proof.
  split.
  - apply (proj1 (discovery_no_exception looping_feed 1 100
                    looping_feed_integer_cursors)).
  - apply (proj2 (discovery_no_exception scenario_feed 50 3
                    scenario_feed_integer_cursors) scenario_discovery).
    vm_compute. reflexivity.
Defined.

(** X8: when every cursor points beyond the page requested, the pages are
    requested in strictly increasing order: no page is requested twice. *)
Theorem discovery_pages_increasing (feed : Z -> response) (max_pages : Z)
    (fuel : nat) (d : discovery) :
  advancing feed ->
  discover_users_from_popular_articles feed max_pages fuel = Some d ->
  StronglySorted Z.lt (fetched d).
Proof.
  intros Hadv. by apply discover_loop_increasing; [|constructor|constructor].
Qed.

Lemma discovery_pages_increasing_witness :
  StronglySorted Z.lt (fetched scenario_discovery).
Proof.
  apply (discovery_pages_increasing scenario_feed 50 3 scenario_discovery
           scenario_feed_advancing).
  vm_compute. reflexivity.
Defined.

(** X9: nothing is missed on the pages the loop went past: for every
    requested page but the last, each truthy username of its articles is in
    the returned set. *)
Theorem discovery_complete (feed : Z -> response) (max_pages : Z) (fuel : nat)
    (d : discovery) (earlier : list Z) (last page : Z) (article : json) (k : pykey) :
  discover_users_from_popular_articles feed max_pages fuel = Some d ->
  fetched d = earlier ++ [last] ->
  page ∈ earlier ->
  article ∈ page_items feed page ->
  article_key article = Some k ->
  k ∈ discovered_users d.
Proof.
  intros Hd Hf Hp Ha Hk.
  apply discover_loop_complete in Hd as [[Hf' _]|(mid & l & Hf' & Hall)].
  - rewrite Hf' in Hf. by destruct earlier.
  - rewrite Hf in Hf'. cbn in Hf'. apply app_inj_tail in Hf' as [-> _].
    apply (Hall page Hp). apply elem_of_list_to_set, list_elem_of_omap. eauto.
  - intros p Hp'. by apply elem_of_nil in Hp'.
Qed.

Lemma discovery_complete_witness : KStr "a" ∈ discovered_users scenario_discovery.
Proof.
  apply (discovery_complete scenario_feed 50 3 scenario_discovery [1] 2 1
           (article_by "a") (KStr "a")).
  - vm_compute. reflexivity.
  - reflexivity.
  - apply list_elem_of_singleton. reflexivity.
  - apply elem_of_cons. left. reflexivity.
  - reflexivity.
Defined.

(** ** RankingGenerator.export_to_csv *)

(** X10: every row of the exported CSV, the header included, has five
    fields, and in every data row the fifth field is https://zenn.dev/
    followed by the second field, the username. *)
Theorem export_to_csv_shape (U : Type) `{PyStr U} (ranking : list (ranked_entry U)) :
  Forall (fun row => length row = 5%nat) (export_to_csv ranking) /\
  Forall (fun row => exists name,
              row !! 1%nat = Some name /\
              row !! 4%nat = Some ("https://zenn.dev/" +:+ name))
         (tail (export_to_csv ranking)).
Proof.
  unfold export_to_csv. cbn [tail]. split.
  - constructor; [done|]. apply Forall_fmap, Forall_forall.
    by intros [[[rank username] total_likes] article_count] _.
  - apply Forall_fmap, Forall_forall.
    intros [[[rank username] total_likes] article_count] _.
    by exists (py_str username).
Qed.

(** ** ZennRankingOrchestrator.execute_ranking_pipeline *)

Lemma ranking_length_Z {U} (stats : list (user_stat U)) (top_n : Z) :
  0 <= top_n ->
  Z.of_nat (length (generate_top_ranking stats top_n))
  = Z.min top_n (Z.of_nat (length stats)).
Proof.
  intros Hn. rewrite ranking_length, slice_to_length.
  rewrite (Permutation_length (sorted_reverse_perm stat_key stats)).
  destruct (Z.ltb_spec top_n 0); [lia|done].
Qed.

Lemma int_stat_username {U} (s : collected_stat U) (s' : user_stat U) :
  int_stat s = Some s' -> s'.1.1 = s.1.1.
Proof.
  destruct s as [[u [| a | | |]] [| b | | |]]; try done. by intros [= <-].
Qed.

Lemma int_stats_usernames {U} (l : list (collected_stat U)) (l' : list (user_stat U)) :
  int_stats l = Some l' ->
  map (fun s : user_stat U => s.1.1) l' = map (fun s : collected_stat U => s.1.1) l.
Proof.
  revert l'. induction l as [|s rest IH]; intros l'; cbn [int_stats].
  - by intros [= <-].
  - destruct (int_stat s) as [s'|] eqn:Es; [|done].
    destruct (int_stats rest) as [rest'|]; [|done].
    intros [= <-]. cbn. f_equal; [by apply int_stat_username|by apply IH].
Qed.

Lemma int_stats_length {U} (l : list (collected_stat U)) (l' : list (user_stat U)) :
  int_stats l = Some l' -> length l' = length l.
Proof.
  intros Hl. apply int_stats_usernames in Hl.
  by rewrite <- (length_map (fun s : user_stat U => s.1.1)), Hl, length_map.
Qed.

Lemma collect_all_length {U} `{Countable U} (api : U -> response) (usernames : gset U) :
  length (collect_all_user_stats api usernames) = size usernames.
Proof. unfold collect_all_user_stats. by rewrite length_map. Qed.

Lemma ranking_length_any {U} (stats : list (user_stat U)) (top_n : Z) :
  Z.of_nat (length (generate_top_ranking stats top_n))
  = if top_n <? 0 then Z.max 0 (Z.of_nat (length stats) + top_n)
    else Z.min top_n (Z.of_nat (length stats)).
Proof.
  rewrite ranking_length, slice_to_length.
  by rewrite (Permutation_length (sorted_reverse_perm stat_key stats)).
Qed.

(** X11: on the runs the model covers, those in which every collected count
    is an integer, a run writes at most one file, named
    zenn_user_likes_ranking_top100.csv.  A run that writes it has
    discovered some number n of users, and the file has the header and
    [min(top_ranking, n)] rows ([max(0, n + top_ranking)] for a negative
    [top_ranking]); if that run goes on to return, its summary reports n
    both as discovered and as collected, and the number of rows as the
    ranking size. *)
Theorem pipeline_report (feed : Z -> response) (api : pykey -> response)
    (discovery_pages top_ranking : Z) (fuel : nat) (r : pipeline_run) :
  execute_ranking_pipeline feed api discovery_pages top_ranking fuel = Some r ->
  files r = [] \/
  exists d csv,
    let n := Z.of_nat (size (discovered_users d)) in
    let ranked := if top_ranking <? 0 then Z.max 0 (n + top_ranking)
                  else Z.min top_ranking n in
    discover_users_from_popular_articles feed discovery_pages fuel = Some d /\
    files r = [(output_file, csv)] /\
    Z.of_nat (length csv) = 1 + ranked /\
    (how r = Returned ->
     DiscoveredCount n ∈ console r /\
     CollectedCount n ∈ console r /\
     RankingSize ranked ∈ console r).
Proof.
  intros Hr. unfold execute_ranking_pipeline in Hr.
  destruct (discover_users_from_popular_articles feed discovery_pages fuel)
    as [d|] eqn:Hd; [|done].
  destruct (raised d); [injection Hr as <-; by left|].
  destruct (decide (discovered_users d = ∅)); [injection Hr as <-; by left|].
  pose proof (collect_all_length api (discovered_users d)) as Hlen.
  destruct (collect_all_user_stats api (discovered_users d)) as [|c cs] eqn:Ec;
    [injection Hr as <-; by left|].
  destruct (int_stats (c :: cs)) as [user_stats|] eqn:Ei; [|done].
  apply int_stats_length in Ei. rewrite Hlen in Ei.
  pose proof (ranking_length_any user_stats top_ranking) as Hrank.
  rewrite Ei in Hrank.
  right. exists d, (export_to_csv (generate_top_ranking user_stats top_ranking)).
  cbv zeta. split; [done|].
  destruct (print_top_ranking (generate_top_ranking user_stats top_ranking) 30)
    as [table|e table]; injection Hr as <-; cbn [files how console].
  - split; [done|]. split.
    { unfold export_to_csv. cbn [length]. rewrite length_map. lia. }
    intros _. rewrite Ei, Hrank.
    repeat split; do 2 apply list_elem_of_further; apply elem_of_app; right;
      repeat (first [apply list_elem_of_here|apply list_elem_of_further]).
  - split; [done|]. split; [|done].
    unfold export_to_csv. cbn [length]. rewrite length_map. lia.
Qed.

Lemma pipeline_report_witness :
  files scenario_run = [] \/
  exists d csv,
    let n := Z.of_nat (size (discovered_users d)) in
    let ranked := if 100 <? 0 then Z.max 0 (n + 100) else Z.min 100 n in
    discover_users_from_popular_articles scenario_feed 50 3 = Some d /\
    files scenario_run = [(output_file, csv)] /\
    Z.of_nat (length csv) = 1 + ranked /\
    (how scenario_run = Returned ->
     DiscoveredCount n ∈ console scenario_run /\
     CollectedCount n ∈ console scenario_run /\
     RankingSize ranked ∈ console scenario_run).
Proof.
  apply (pipeline_report scenario_feed scenario_api 50 100 3 scenario_run).
  vm_compute. reflexivity.
Defined.

Example scenario_run_files :
  files scenario_run
  = [(output_file,
      [csv_header;
       ["1"; "c"; "30"; "3"; "https://zenn.dev/c"];
       ["2"; "a"; "10"; "0"; "https://zenn.dev/a"];
       ["3"; "b"; "0"; "0"; "https://zenn.dev/b"]])] /\
  how scenario_run = Returned.
Proof. split; vm_compute; reflexivity. Qed.

Lemma pipeline_files_cases feed api discovery_pages top_ranking fuel r :
  execute_ranking_pipeline feed api discovery_pages top_ranking fuel = Some r ->
  files r = [] \/
  exists user_stats : list (user_stat pykey),
    files r = [(output_file,
                export_to_csv (generate_top_ranking user_stats top_ranking))].
Proof.
  unfold execute_ranking_pipeline.
  destruct (discover_users_from_popular_articles feed discovery_pages fuel)
    as [d|]; [|done].
  destruct (raised d); [intros [= <-]; by left|].
  destruct (decide (discovered_users d = ∅)); [intros [= <-]; by left|].
  destruct (collect_all_user_stats api (discovered_users d)) as [|c cs];
    [intros [= <-]; by left|].
  destruct (int_stats (c :: cs)) as [user_stats|]; [|intros [= <-]; by left].
  destruct (print_top_ranking _ 30); intros [= <-]; right; by exists user_stats.
Qed.

(** X12: on the runs the model covers, those in which every collected
    count is an integer, [main] never writes more than a hundred ranked
    users: whatever the feed answers, a file it writes is
    zenn_user_likes_ranking_top100.csv and has at most 101 rows. *)
Theorem main_top_hundred (feed : Z -> response) (api : pykey -> response)
    (fuel : nat) (r : pipeline_run) (path : string) (csv : list (list string)) :
  main feed api fuel = Some r ->
  (path, csv) ∈ files r ->
  path = output_file /\ (length csv <= 101)%nat.
Proof.
  intros Hr Hin. apply pipeline_files_cases in Hr as [Hf|(user_stats & Hf)];
    rewrite Hf in Hin; [by apply elem_of_nil in Hin|].
  apply list_elem_of_singleton in Hin. injection Hin as -> ->. split; [done|].
  unfold export_to_csv. cbn [length]. rewrite length_map.
  pose proof (ranking_length_Z user_stats 100). lia.
Qed.

Lemma main_top_hundred_witness :
  output_file = output_file /\
  (length [csv_header;
           ["1"; "c"; "30"; "3"; "https://zenn.dev/c"];
           ["2"; "a"; "10"; "0"; "https://zenn.dev/a"];
           ["3"; "b"; "0"; "0"; "https://zenn.dev/b"]] <= 101)%nat.
Proof.
  apply (main_top_hundred scenario_feed scenario_api 3 scenario_run).
  - vm_compute. reflexivity.
  - apply list_elem_of_singleton. vm_compute. reflexivity.
Defined.









(** * Properties of the article scripts *)

(** ** zenn_analyzer.py: parse_json_and_calculate *)

Lemma chars_length s : length (PyJson.chars s) = String.length s.
Proof. induction s as [|c s IH]; [done|]. cbn. by rewrite IH. Qed.

Lemma len_iter articles n items :
  PyItem.len articles = Some n -> PyJson.iter articles = Some items ->
  n = Z.of_nat (length items).
Proof.
  destruct articles as [| |s|l|f]; try done; cbn; intros [= <-] [= <-].
  - by rewrite chars_length.
  - done.
  - by rewrite length_map.
Qed.

Lemma sum_liked_total items acc liked :
  PyItem.sum_liked items acc = Some liked ->
  liked = acc + total (map liked_count_of items).
Proof.
  revert acc. induction items as [|a rest IH]; intros acc; cbn [PyItem.sum_liked].
  - intros [= <-]. cbn. lia.
  - destruct (PyItem.getitem a "liked_count") as [[|z| | |]|] eqn:E; try done.
    intros Hs. apply IH in Hs. cbn [map]. unfold total in *. cbn [foldr].
    unfold liked_count_of at 1. rewrite E. lia.
Qed.

Section AnalyzerFacts.

Variable api : string -> json -> response.
Variable url : string.

Lemma page_articles_ok page status data articles items :
  api url page = Response true status (Some data) ->
  PyItem.getitem data "articles" = Some articles ->
  PyJson.iter articles = Some items ->
  page_articles api url page = items.
Proof. intros Ha Hart Hi. unfold page_articles. by rewrite Ha, Hart; cbn; rewrite Hi. Qed.

Lemma page_articles_not_ok page status body :
  api url page = Response false status body -> page_articles api url page = [].
Proof. intros Ha. unfold page_articles. by rewrite Ha. Qed.

Lemma parse_loop_totals fuel page article_count total_liked_count requests t
    name n liked :
  parse_loop api fuel url page article_count total_liked_count requests = Some t ->
  result t = Return (name, n, liked) ->
  exists more,
    requested t = requests ++ more /\
    n = article_count
        + total (map (fun p => Z.of_nat (length (page_articles api url p))) more) /\
    liked = total_liked_count
            + total (map (fun p => total (map liked_count_of (page_articles api url p)))
                         more).
Proof.
  revert page article_count total_liked_count requests.
  induction fuel as [|fuel IH]; intros page ac tl requests; [done|].
  cbn [parse_loop].
  destruct (api url page) as [|[] st body] eqn:Ea; [by intros [= <-] [=]| |].
  - destruct body as [data|]; [|by intros [= <-] [=]].
    destruct (PyItem.getitem data "articles") as [articles|] eqn:Eart;
      [|by intros [= <-] [=]].
    destruct (PyItem.len articles) as [k|] eqn:El; [|by intros [= <-] [=]].
    destruct (PyJson.iter articles) as [items|] eqn:Ei; [|by intros [= <-] [=]].
    destruct (PyItem.sum_liked items 0) as [s|] eqn:Es; [|by intros [= <-] [=]].
    apply sum_liked_total in Es. pose proof (len_iter _ _ _ El Ei) as Hk.
    pose proof (page_articles_ok _ _ _ _ _ Ea Eart Ei) as Hpage.
    assert (forall t' : traced (json * Z * Z),
               (exists more,
                   requested t' = (requests ++ [page]) ++ more /\
                   n = (ac + k)
                       + total (map (fun p => Z.of_nat (length (page_articles api url p)))
                                    more) /\
                   liked = (tl + s)
                           + total (map (fun p => total (map liked_count_of
                                                           (page_articles api url p)))
                                        more)) ->
               exists more,
                 requested t' = requests ++ more /\
                 n = ac
                     + total (map (fun p => Z.of_nat (length (page_articles api url p)))
                                  more) /\
                 liked = tl
                         + total (map (fun p => total (map liked_count_of
                                                         (page_articles api url p)))
                                      more)) as Hshift.
    { intros t' (more & Hreq & Hn & Hl). exists (page :: more).
      split; [by rewrite Hreq, <- app_assoc|].
      cbn [map]. unfold total in *. cbn [foldr]. rewrite Hpage.
      split; [rewrite Hn, Hk; ring|rewrite Hl, Es; ring]. }
    destruct (PyItem.getitem data "next_page") as [np|]; [|by intros [= <-] [=]].
    destruct np as [|z|s'|l|f];
      try (intros Ht Hres; apply Hshift; by eapply IH).
    destruct (resolve_user_name articles) as [user_name|]; [|by intros [= <-] [=]].
    intros [= <-] [= <- <- <-]. apply Hshift. exists []. cbn.
    rewrite app_nil_r. split; [done|]. split; ring.
  - intros Ht Hres. destruct (IH _ _ _ _ Ht Hres) as (more & Hreq & Hn & Hl).
    exists (page :: more). split; [by rewrite Hreq, <- app_assoc|].
    cbn [map]. unfold total in *. cbn [foldr].
    rewrite (page_articles_not_ok _ _ _ Ea). cbn [length map foldr].
    split; [rewrite Hn; ring|rewrite Hl; ring].
Qed.

End AnalyzerFacts.

(** X14: the totals [parse_json_and_calculate] returns are the totals over
    the pages it requested: the article count is the number of articles on
    those pages and the total of likes is the sum of their liked counts. *)
Theorem parse_totals (api : string -> json -> response) (fuel : nat) (url : string)
    (t : traced (json * Z * Z)) (name : json) (n liked : Z) :
  parse_json_and_calculate api fuel url = Some t ->
  result t = Return (name, n, liked) ->
  n = total (map (fun p => Z.of_nat (length (page_articles api url p))) (requested t)) /\
  liked = total (map (fun p => total (map liked_count_of (page_articles api url p)))
                     (requested t)).
Proof.
  intros Ht Hres.
  destruct (parse_loop_totals api url _ _ _ _ _ _ _ _ _ Ht Hres)
    as (more & Hreq & Hn & Hl).
  cbn in Hreq. rewrite Hreq. split; [rewrite Hn|rewrite Hl]; ring.
Qed.

Lemma parse_totals_witness :
  3 = total (map (fun p => Z.of_nat (length (page_articles two_page_api "u" p)))
                 [JInt 1; JInt 2]) /\
  12 = total (map (fun p => total (map liked_count_of (page_articles two_page_api "u" p)))
                  [JInt 1; JInt 2]).
Proof.
  apply (parse_totals two_page_api 2 "u"
           {| result := Return (JStr "P", 3, 12); requested := [JInt 1; JInt 2] |}
           (JStr "P") 3 12); reflexivity.
Defined.

Section NotOkFacts.

Variable api : string -> json -> response.
Variable url : string.

Lemma parse_loop_not_ok fuel page status body article_count total_liked_count requests :
  api url page = Response false status body ->
  parse_loop api fuel url page article_count total_liked_count requests = None.
Proof.
  intros Ha. revert requests.
  induction fuel as [|fuel IH]; intros requests; [done|].
  cbn [parse_loop]. rewrite Ha. apply IH.
Qed.

End NotOkFacts.

(** X15: a response that is not ok is handled in opposite ways by the two
    scripts.  [parse_json_and_calculate] requests the same page again,
    however often it has done so, and never returns; [fetch_articles] stops
    there and returns the articles gathered so far, without an exception. *)
Theorem not_ok_page (api : string -> json -> response) (url : string) (page : json)
    (status : Z) (body : option json) (fuel : nat)
    (article_count total_liked_count : Z) (articles_data : list article_info)
    (requests : list json) :
  api url page = Response false status body ->
  parse_loop api fuel url page article_count total_liked_count requests = None /\
  fetch_loop api (S fuel) url page articles_data requests
  = Some {| result := Return articles_data; requested := requests ++ [page] |}.
Proof.
  intros Ha. split.
  - by eapply parse_loop_not_ok.
  - cbn [fetch_loop]. by rewrite Ha.
Qed.

Lemma not_ok_page_witness :
  parse_loop unavailable_api 100 "u" (JInt 1) 0 0 [] = None /\
  fetch_loop unavailable_api 101 "u" (JInt 1) [] []
  = Some {| result := Return []; requested := [JInt 1] |}.
Proof.
  apply (not_ok_page unavailable_api "u" (JInt 1) 503 None 100 0 0 [] []).
  reflexivity.
Defined.

(** X16: [parse_json_and_calculate] raises on a last page without
    articles: with no first article to name the user, the lookup in the
    handler raises as the one in the [try] did. *)
Theorem parse_no_articles_raises (api : string -> json -> response) (fuel : nat)
    (url : string) (page : json) (status : Z) (data : json)
    (article_count total_liked_count : Z) (requests : list json) :
  api url page = Response true status (Some data) ->
  PyItem.getitem data "articles" = Some (JArr []) ->
  PyItem.getitem data "next_page" = Some JNull ->
  parse_loop api (S fuel) url page article_count total_liked_count requests
  = Some {| result := Raise; requested := requests ++ [page] |}.
Proof. intros Ha Hart Hnp. cbn [parse_loop]. rewrite Ha, Hart. cbn. by rewrite Hnp. Qed.

Lemma parse_no_articles_raises_witness :
  parse_json_and_calculate no_articles_api 1 "u"
  = Some {| result := Raise; requested := [JInt 1] |}.
Proof.
  apply (parse_no_articles_raises no_articles_api 0 "u" (JInt 1) 200
           (JObj [("articles", JArr []); ("next_page", JNull)]) 0 0 []);
    reflexivity.
Defined.

(** ** zenn_article_analyzer.py: ZennAPIClient.fetch_articles *)

Lemma article_tuples_length items infos :
  article_tuples items = Some infos -> length infos = length items.
Proof.
  revert infos. induction items as [|a rest IH]; intros infos; cbn [article_tuples].
  - by intros [= <-].
  - destruct (article_tuple a); [|done].
    destruct (article_tuples rest) as [r|]; [|done].
    intros [= <-]. cbn. by rewrite (IH r).
Qed.

Section FetchFacts.

Variable api : string -> json -> response.
Variable url : string.

Lemma page_tuples_ok page status data articles infos :
  api url page = Response true status (Some data) ->
  PyJson.get data "articles" (JArr []) = Some articles ->
  PyJson.iter articles ≫= article_tuples = Some infos ->
  page_tuples api url page = infos.
Proof.
  intros Ha Hart Hi. unfold page_tuples. rewrite Ha, Hart.
  cbn [mbind option_bind]. by rewrite Hi.
Qed.

Lemma fetch_loop_data fuel page articles_data requests t data :
  fetch_loop api fuel url page articles_data requests = Some t ->
  result t = Return data ->
  exists more,
    requested t = requests ++ more /\
    data = articles_data ++ concat (map (page_tuples api url) more).
Proof.
  revert page articles_data requests.
  induction fuel as [|fuel IH]; intros page acc requests; [done|].
  cbn [fetch_loop].
  destruct (api url page) as [|[] st body] eqn:Ea; [by intros [= <-] [=]| |].
  - destruct body as [json_data|]; [|by intros [= <-] [=]].
    destruct (PyJson.get json_data "articles" (JArr [])) as [articles|] eqn:Eart;
      [|by intros [= <-] [=]].
    destruct (PyJson.iter articles ≫= article_tuples) as [infos|] eqn:Ei;
      [|by intros [= <-] [=]].
    pose proof (page_tuples_ok _ _ _ _ _ Ea Eart Ei) as Hpage.
    assert ((exists more,
                requested t = (requests ++ [page]) ++ more /\
                data = (acc ++ infos) ++ concat (map (page_tuples api url) more)) ->
            exists more,
              requested t = requests ++ more /\
              data = acc ++ concat (map (page_tuples api url) more)) as Hshift.
    { intros (more & Hreq & Hdata). exists (page :: more).
      split; [by rewrite Hreq, <- app_assoc|].
      cbn [map concat]. by rewrite Hpage, Hdata, <- app_assoc. }
    destruct (PyJson.get json_data "next_page" JNull) as [np|];
      [|by intros [= <-] [=]].
    destruct np as [|z|s|l|f];
      try (intros Ht Hres; apply Hshift; by eapply IH).
    intros [= <-] [= <-]. apply Hshift. exists []. cbn. by rewrite !app_nil_r.
  - intros [= <-] [= <-]. exists [page]. split; [done|].
    unfold page_tuples. cbn. rewrite Ea. cbn. by rewrite app_nil_r.
Qed.

Lemma fetch_loop_self_cursor fuel page status data infos articles_data requests :
  api url page = Response true status (Some data) ->
  (PyJson.get data "articles" (JArr []) ≫= PyJson.iter) ≫= article_tuples
  = Some infos ->
  PyJson.get data "next_page" JNull = Some page ->
  page <> JNull ->
  fetch_loop api fuel url page articles_data requests = None.
Proof.
  intros Ha Hi Hnp Hne. revert articles_data requests.
  induction fuel as [|fuel IH]; intros acc requests; [done|].
  cbn [fetch_loop]. rewrite Ha.
  destruct (PyJson.get data "articles" (JArr [])) as [articles|]; [|done].
  cbn [mbind option_bind] in Hi. rewrite Hi, Hnp.
  destruct page; try done; apply IH.
Qed.

End FetchFacts.

(** X17: what [fetch_articles] returns is, page by page in the order of the
    requests, the tuples of the articles of the pages it requested; a page
    that is not ok contributes none. *)
Theorem fetch_articles_data (api : string -> json -> response) (fuel : nat)
    (url : string) (t : traced (list article_info)) (data : list article_info) :
  fetch_articles api fuel url = Some t ->
  result t = Return data ->
  data = concat (map (page_tuples api url) (requested t)).
Proof.
  intros Ht Hres.
  destruct (fetch_loop_data api url _ _ _ _ _ _ Ht Hres) as (more & Hreq & ->).
  cbn in Hreq. by rewrite Hreq.
Qed.

Lemma fetch_articles_data_witness :
  [(JStr "t1", JStr "", JStr "a", JInt 3); (JStr "t2", JStr "", JStr "a", JInt 4);
   (JStr "t3", JStr "P", JStr "a", JInt 5)]
  = concat (map (page_tuples two_page_api "u") [JInt 1; JInt 2]).
Proof.
  apply (fetch_articles_data two_page_api 2 "u"
           {| result :=
                Return [(JStr "t1", JStr "", JStr "a", JInt 3);
                        (JStr "t2", JStr "", JStr "a", JInt 4);
                        (JStr "t3", JStr "P", JStr "a", JInt 5)];
              requested := [JInt 1; JInt 2] |}); reflexivity.
Defined.

(** X18: [fetch_articles] has no bound on its pages: on a page that is ok,
    has well-formed articles and names itself as the next page, the loop
    does not end within any number of iterations. *)
Theorem fetch_articles_unbounded (api : string -> json -> response) (url : string)
    (page : json) (status : Z) (data : json) (infos : list article_info)
    (fuel : nat) (articles_data : list article_info) (requests : list json) :
  api url page = Response true status (Some data) ->
  (PyJson.get data "articles" (JArr []) ≫= PyJson.iter) ≫= article_tuples
  = Some infos ->
  PyJson.get data "next_page" JNull = Some page ->
  page <> JNull ->
  fetch_loop api fuel url page articles_data requests = None.
Proof. intros Ha Hi Hnp Hne. by eapply fetch_loop_self_cursor. Qed.

Lemma fetch_articles_unbounded_witness :
  fetch_loop self_cursor_api 100 "u" (JInt 1) [] [] = None.
Proof.
  apply (fetch_articles_unbounded self_cursor_api "u" (JInt 1) 200
           (JObj [("articles", JArr []); ("next_page", JInt 1)]) [] 100 [] []);
    [reflexivity|reflexivity|reflexivity|discriminate].
Defined.

(** ** The two article scripts side by side *)

Lemma getitem_get d k v default :
  PyItem.getitem d k = Some v -> PyJson.get d k default = Some v.
Proof. destruct d; try done. cbn. by intros ->. Qed.

Lemma article_tuple_likes article info z :
  article_tuple article = Some info ->
  PyItem.getitem article "liked_count" = Some (JInt z) ->
  info_likes info = z.
Proof.
  intros Hi Hl. unfold article_tuple in Hi.
  rewrite (getitem_get _ _ _ (JInt 0) Hl) in Hi.
  destruct (PyJson.get article "title" (JStr "")); [|done].
  destruct (PyJson.get article "publication" JNull) as [pub|]; [|done].
  destruct (if PyJson.truthy pub then _ else _); [|done].
  destruct (PyJson.get article "user" (JObj [])) as [user|]; [|done].
  destruct (PyJson.get user "username" (JStr "")); [|done].
  by injection Hi as <-.
Qed.

Lemma sum_liked_tuples items infos acc liked :
  PyItem.sum_liked items acc = Some liked ->
  article_tuples items = Some infos ->
  liked = acc + total (map info_likes infos).
Proof.
  revert infos acc. induction items as [|a rest IH]; intros infos acc;
    cbn [PyItem.sum_liked article_tuples].
  - intros [= <-] [= <-]. cbn. lia.
  - destruct (PyItem.getitem a "liked_count") as [[|z| | |]|] eqn:El; try done.
    destruct (article_tuple a) as [info|] eqn:Ea; [|done].
    destruct (article_tuples rest) as [infos'|]; [|done].
    intros Hs [= <-]. rewrite (IH infos' _ Hs eq_refl).
    cbn [map]. unfold total. cbn [foldr].
    rewrite (article_tuple_likes _ _ _ Ea El). ring.
Qed.

Lemma total_app l1 l2 : total (l1 ++ l2) = total l1 + total l2.
Proof.
  unfold total. induction l1 as [|x l1 IH]; cbn [app foldr]; [ring|].
  rewrite IH. ring.
Qed.

Section ScriptsAgree.

Variable api : string -> json -> response.
Variable url : string.

Lemma loops_agree fuel1 fuel2 page article_count total_liked_count requests1
    articles_data requests2 t1 t2 name n liked data :
  parse_loop api fuel1 url page article_count total_liked_count requests1 = Some t1 ->
  result t1 = Return (name, n, liked) ->
  fetch_loop api fuel2 url page articles_data requests2 = Some t2 ->
  result t2 = Return data ->
  (exists more, requested t1 = requests1 ++ more /\ requested t2 = requests2 ++ more) /\
  (exists infos,
      data = articles_data ++ infos /\
      n = article_count + Z.of_nat (length infos) /\
      liked = total_liked_count + total (map info_likes infos)).
Proof.
  revert fuel2 page article_count total_liked_count requests1 articles_data requests2.
  induction fuel1 as [|fuel1 IH];
    intros fuel2 page ac tl r1 acc r2; [done|].
  destruct fuel2 as [|fuel2]; [done|].
  cbn [parse_loop fetch_loop].
  destruct (api url page) as [|[] st body] eqn:Ea; [by intros [= <-] [=]| |].
  - destruct body as [json_data|]; [|by intros [= <-] [=]].
    destruct (PyItem.getitem json_data "articles") as [articles|] eqn:Eart;
      [|by intros [= <-] [=]].
    rewrite (getitem_get _ _ _ (JArr []) Eart).
    destruct (PyItem.len articles) as [k|] eqn:El; [|by intros [= <-] [=]].
    destruct (PyJson.iter articles) as [items|] eqn:Ei; [|by intros [= <-] [=]].
    cbn [mbind option_bind].
    destruct (PyItem.sum_liked items 0) as [s|] eqn:Es; [|by intros [= <-] [=]].
    destruct (PyItem.getitem json_data "next_page") as [np|] eqn:Enp;
      [|by intros [= <-] [=]].
    rewrite (getitem_get _ _ _ JNull Enp).
    destruct (article_tuples items) as [infos|] eqn:Et;
      [|by intros _ _ [= <-] [=]].
    pose proof (len_iter _ _ _ El Ei) as Hk.
    pose proof (article_tuples_length _ _ Et) as Hlen.
    pose proof (sum_liked_tuples _ _ _ _ Es Et) as Hs.
    assert ((exists more, requested t1 = (r1 ++ [page]) ++ more /\
                          requested t2 = (r2 ++ [page]) ++ more) /\
            (exists infos',
                data = (acc ++ infos) ++ infos' /\
                n = (ac + k) + Z.of_nat (length infos') /\
                liked = (tl + s) + total (map info_likes infos')) ->
            (exists more, requested t1 = r1 ++ more /\ requested t2 = r2 ++ more) /\
            (exists infos',
                data = acc ++ infos' /\
                n = ac + Z.of_nat (length infos') /\
                liked = tl + total (map info_likes infos'))) as Hshift.
    { intros [(more & Hq1 & Hq2) (infos' & Hd & Hn & Hl)]. split.
      - exists (page :: more). by rewrite Hq1, Hq2, <- !app_assoc.
      - exists (infos ++ infos'). split; [by rewrite Hd, <- app_assoc|].
        rewrite length_app, map_app, total_app.
        split; [lia|]. rewrite Hl, Hs. ring. }
    destruct np as [|z|s'|l|f];
      try (intros Ht1 Hr1 Ht2 Hr2; apply Hshift; by eapply IH).
    destruct (resolve_user_name articles) as [user_name|]; [|by intros [= <-] [=]].
    intros [= <-] [= <- <- <-] [= <-] [= <-]. apply Hshift. split.
    + exists []. by rewrite !app_nil_r.
    + exists []. rewrite app_nil_r. cbn. split; [done|]. split; ring.
  - intros Ht1. by rewrite (parse_loop_not_ok api url _ _ _ _ _ _ _ Ea) in Ht1.
Qed.

End ScriptsAgree.

(** X19: the two scripts agree where both return.  For one URL they
    request the same pages, the article count of [parse_json_and_calculate]
    is the number of tuples [fetch_articles] returns, and its total of
    likes is the sum of the liked counts in those tuples. *)
Theorem scripts_agree (api : string -> json -> response) (fuel1 fuel2 : nat)
    (url : string) (t1 : traced (json * Z * Z)) (t2 : traced (list article_info))
    (name : json) (n liked : Z) (data : list article_info) :
  parse_json_and_calculate api fuel1 url = Some t1 ->
  result t1 = Return (name, n, liked) ->
  fetch_articles api fuel2 url = Some t2 ->
  result t2 = Return data ->
  requested t1 = requested t2 /\
  n = Z.of_nat (length data) /\
  liked = total (map info_likes data).
Proof.
  intros Ht1 Hr1 Ht2 Hr2.
  destruct (loops_agree api url _ _ _ _ _ _ _ _ _ _ _ _ _ _ Ht1 Hr1 Ht2 Hr2)
    as [(more & -> & ->) (infos & -> & -> & ->)].
  cbn [app]. split; [done|]. split; [|unfold total]; ring.
Qed.

Lemma scripts_agree_witness :
  [JInt 1; JInt 2] = [JInt 1; JInt 2] /\
  3 = Z.of_nat (length [(JStr "t1", JStr "", JStr "a", JInt 3);
                        (JStr "t2", JStr "", JStr "a", JInt 4);
                        (JStr "t3", JStr "P", JStr "a", JInt 5)]) /\
  12 = total (map info_likes [(JStr "t1", JStr "", JStr "a", JInt 3);
                              (JStr "t2", JStr "", JStr "a", JInt 4);
                              (JStr "t3", JStr "P", JStr "a", JInt 5)]).
Proof.
  apply (scripts_agree two_page_api 2 5 "u"
           {| result := Return (JStr "P", 3, 12); requested := [JInt 1; JInt 2] |}
           {| result :=
                Return [(JStr "t1", JStr "", JStr "a", JInt 3);
                        (JStr "t2", JStr "", JStr "a", JInt 4);
                        (JStr "t3", JStr "P", JStr "a", JInt 5)];
              requested := [JInt 1; JInt 2] |}
           (JStr "P")); reflexivity.
Defined.

(** ** Reading the URL list *)

Lemma first_columns_empty_row (rows : list (list string)) :
  [] ∈ rows -> first_columns rows = None.
Proof.
  induction rows as [|[|url cols] rest IH]; [by intros H%elem_of_nil|done|].
  intros [H|H]%elem_of_cons; [done|]. cbn [first_columns]. by rewrite IH.
Qed.

(** X20: the two readers of the URL list agree on a file without empty
    rows; on a file with an empty row the totals script raises, while
    [CSVReader.read_csv] skips the row and reads the file as if the empty
    rows were not there. *)
Theorem readers_agree (rows : list (list string)) :
  ([] ∉ rows -> first_columns rows = Some (read_csv rows)) /\
  ([] ∈ rows -> first_columns rows = None) /\
  read_csv rows = read_csv (filter (fun row => row <> []) rows).
Proof.
  induction rows as [|[|url cols] rest (IH1 & IH2 & IH3)].
  - split; [done|]. split; [|done]. intros H. by apply elem_of_nil in H.
  - split; [|split; [by intros _|]].
    + intros H. exfalso. apply H, list_elem_of_here.
    + cbn [read_csv]. rewrite filter_cons. by destruct (decide _).
  - split; [|split].
    + intros H. cbn [first_columns read_csv]. rewrite IH1; [done|].
      intros Hin. apply H. by apply list_elem_of_further.
    + apply first_columns_empty_row.
    + rewrite filter_cons. destruct (decide _) as [|Hn]; [|by destruct Hn].
      cbn [read_csv]. by rewrite IH3.
Qed.

Lemma readers_agree_witness :
  ([] ∉ url_rows -> first_columns url_rows = Some (read_csv url_rows)) /\
  ([] ∈ url_rows -> first_columns url_rows = None) /\
  read_csv url_rows = read_csv (filter (fun row => row <> []) url_rows).
Proof. exact (readers_agree url_rows). Defined.

(** ** zenn_article_analyzer.py: MainProcessor.process *)

Section ProcessFacts.

Variable api : string -> json -> response.

Lemma fetch_all_outcome fuel url_list all_articles o :
  fetch_all api fuel url_list all_articles = Some o ->
  match o with
  | Return all =>
      exists per_url,
        Forall2 (fun url data =>
                   exists t, fetch_articles api fuel url = Some t /\
                             result t = Return data) url_list per_url /\
        all = all_articles ++ concat per_url
  | Raise =>
      exists url t,
        url ∈ url_list /\ fetch_articles api fuel url = Some t /\ result t = Raise
  end.
Proof.
  revert all_articles. induction url_list as [|url rest IH]; intros acc;
    cbn [fetch_all].
  - intros [= <-]. exists []. split; [constructor|]. cbn. by rewrite app_nil_r.
  - destruct (fetch_articles api fuel url) as [t|] eqn:Et; [|done].
    destruct (result t) as [data|] eqn:Er.
    + intros Ho. apply IH in Ho. destruct o as [all|].
      * destruct Ho as (per_url & Hall & ->). exists (data :: per_url).
        split; [constructor; [by exists t|done]|]. cbn. by rewrite app_assoc.
      * destruct Ho as (u & t' & Hin & Ht' & Hr'). exists u, t'.
        split; [by apply list_elem_of_further|done].
    + intros [= <-]. exists url, t. split; [apply list_elem_of_here|done].
Qed.

End ProcessFacts.

Lemma fetch_all_raise_inv (api : string -> json -> response) fuel url_list
    all_articles all url t :
  fetch_all api fuel url_list all_articles = Some (Return all) ->
  url ∈ url_list ->
  fetch_articles api fuel url = Some t ->
  result t <> Raise.
Proof.
  intros Hf Hin Ht Hr. apply fetch_all_outcome in Hf as (per_url & Hall & _).
  apply list_elem_of_lookup in Hin as [i Hi].
  destruct (Forall2_lookup_l _ _ _ _ _ Hall Hi) as (data & _ & t' & Ht' & Hr').
  congruence.
Qed.

(** X21: [process] touches the output file only after the URL list was
    read and every fetch returned.  When it returns, the file holds the
    header row and then, URL by URL in the order of the list, one row per
    article that each fetch returned.  When reading the list raises, or
    the fetch of any URL of the list raises, the run raises and
    [write_to_csv] is not called. *)
Theorem process_all_or_nothing (api : string -> json -> response) (fuel : nat)
    (url_file : option (list (list string))) (writer : list (list json) -> bool)
    (run : process_run) :
  process api fuel url_file writer = Some run ->
  (output run <> Untouched ->
   exists rows per_url,
     url_file = Some rows /\
     Forall2 (fun url data =>
                exists t, fetch_articles api fuel url = Some t /\
                          result t = Return data) (read_csv rows) per_url /\
     (ended run = Return () ->
      output run = Replaced (write_to_csv (concat per_url)) /\
      write_to_csv (concat per_url) !! 0%nat = Some (map JStr article_csv_header) /\
      length (write_to_csv (concat per_url)) = S (length (concat per_url)))) /\
  (ended run = Return () -> output run <> Untouched) /\
  (url_file = None -> ended run = Raise /\ output run = Untouched) /\
  (forall rows url t,
      url_file = Some rows ->
      url ∈ read_csv rows ->
      fetch_articles api fuel url = Some t ->
      result t = Raise ->
      ended run = Raise /\ output run = Untouched).
Proof.
  unfold process. destruct url_file as [rows|].
  - destruct (fetch_all api fuel (read_csv rows) []) as [[all|]|] eqn:Ef; [| |done].
    + apply fetch_all_outcome in Ef as Ho. destruct Ho as (per_url & Hall & ->).
      cbn [app]. destruct (writer _); intros [= <-]; cbn [ended output].
      * split; [|split; [done|split; [done|]]].
        -- intros _. exists rows, per_url. split; [done|]. split; [done|].
           intros _. split; [done|]. split; [done|]. cbn. by rewrite length_map.
        -- intros rows' url t [= <-] Hin Ht Hr.
           by destruct (fetch_all_raise_inv _ _ _ _ _ _ _ Ef Hin Ht).
      * split; [|split; [done|split; [done|]]].
        -- intros _. exists rows, per_url. by split; [|split].
        -- intros rows' url t [= <-] Hin Ht Hr.
           by destruct (fetch_all_raise_inv _ _ _ _ _ _ _ Ef Hin Ht).
    + intros [= <-]. cbn [ended output]. by repeat split.
  - intros [= <-]. cbn [ended output]. by repeat split.
Qed.

Lemma process_all_or_nothing_witness :
  (exists rows per_url,
      Some url_rows = Some rows /\
      Forall2 (fun url data =>
                 exists t, fetch_articles two_page_api 2 url = Some t /\
                           result t = Return data) (read_csv rows) per_url /\
      (ended process_scenario_run = Return () ->
       output process_scenario_run = Replaced (write_to_csv (concat per_url)) /\
       write_to_csv (concat per_url) !! 0%nat = Some (map JStr article_csv_header) /\
       length (write_to_csv (concat per_url)) = S (length (concat per_url)))) /\
  (ended {| ended := Raise; output := Untouched |} = Raise /\
   output {| ended := Raise; output := Untouched |} = Untouched).
Proof.
  split.
  - apply (proj1 (process_all_or_nothing two_page_api 2 (Some url_rows)
                    always_writes process_scenario_run eq_refl)).
    discriminate.
  - apply (proj2 (proj2 (proj2 (process_all_or_nothing second_url_fails_api 2
                                  (Some url_rows) always_writes
                                  {| ended := Raise; output := Untouched |} eq_refl)))
             url_rows "u2" {| result := Raise; requested := [JInt 1] |});
      [reflexivity| |reflexivity|reflexivity].
    apply list_elem_of_further, list_elem_of_here.
Defined.

(** ** zenn_analyzer.py: the script body *)

Section ScriptFacts.

Variable api : string -> json -> response.

Lemma collect_totals_outcome fuel url_list o :
  collect_totals api fuel url_list = Some o ->
  match o with
  | Return l =>
      Forall2 (fun url totals =>
                 exists t, parse_json_and_calculate api fuel url = Some t /\
                           result t = Return totals) url_list l
  | Raise =>
      exists url t,
        url ∈ url_list /\ parse_json_and_calculate api fuel url = Some t /\
        result t = Raise
  end.
Proof.
  revert o. induction url_list as [|url rest IH]; intros o; cbn [collect_totals].
  - intros [= <-]. constructor.
  - destruct (parse_json_and_calculate api fuel url) as [t|] eqn:Et; [|done].
    destruct (result t) as [totals|] eqn:Er.
    + destruct (collect_totals api fuel rest) as [[l|]|]; [| |done]; intros [= <-].
      * constructor; [by exists t|]. by apply (IH (Return l)).
      * destruct (IH Raise eq_refl) as (u & t' & Hin & Ht' & Hr').
        exists u, t'. split; [by apply list_elem_of_further|done].
    + intros [= <-]. exists url, t. split; [apply list_elem_of_here|done].
Qed.

End ScriptFacts.

(** X22: the list the totals script prints has one entry per row of the
    URL file, in order, each the result of parsing the first column of its
    row; the script prints nothing unless every row has a URL and every
    parse returns. *)
Theorem analyzer_script_prints (api : string -> json -> response) (fuel : nat)
    (rows : list (list string)) (l : list (json * Z * Z)) :
  analyzer_script api fuel rows = Some (Return l) ->
  ([] ∉ rows) /\
  length l = length rows /\
  Forall2 (fun row totals =>
             exists url cols t,
               row = url :: cols /\
               parse_json_and_calculate api fuel url = Some t /\
               result t = Return totals) rows l.
Proof.
  unfold analyzer_script.
  destruct (first_columns rows) as [urls|] eqn:Eu; [|done].
  intros Hc. apply collect_totals_outcome in Hc.
  assert (Forall2 (fun row totals =>
                     exists url cols t,
                       row = url :: cols /\
                       parse_json_and_calculate api fuel url = Some t /\
                       result t = Return totals) rows l) as Hall.
  { revert urls l Eu Hc. induction rows as [|[|url cols] rest IH];
      intros urls l; cbn [first_columns]; [| done |].
    - intros [= <-] Hc. inversion Hc. constructor.
    - destruct (first_columns rest) as [urls'|]; [|done].
      intros [= <-] Hc. inversion Hc as [|? totals ? l' (t & Ht & Hr) Hrest]; subst.
      constructor; [by exists url, cols, t|]. by eapply IH. }
  split; [|split; [by rewrite (Forall2_length _ _ _ Hall)|done]].
  intros Hin. apply first_columns_empty_row in Hin. congruence.
Qed.

Lemma analyzer_script_prints_witness :
  ([] ∉ url_rows_full) /\
  length [(JStr "P", 3, 12); (JStr "P", 3, 12)] = length url_rows_full /\
  Forall2 (fun row totals =>
             exists url cols t,
               row = url :: cols /\
               parse_json_and_calculate two_page_api 2 url = Some t /\
               result t = Return totals)
          url_rows_full [(JStr "P", 3, 12); (JStr "P", 3, 12)].
Proof.
  apply (analyzer_script_prints two_page_api 2 url_rows_full
           [(JStr "P", 3, 12); (JStr "P", 3, 12)]).
  reflexivity.
Defined.
